(** * googleanalytics/query.py: query builder, pagination and reports

    A shallow embedding of [Report], [Query] and [CoreQuery] over an explicit
    object store.  Python lists, dicts and class instances are mutable and
    passed by reference, so they live in a heap of objects addressed by
    locations; every method is a computation over that heap which may raise a
    Python exception.  The transport requests issued by [execute] are
    recorded in a log that is part of the state. *)

From stdpp Require Import gmap strings list.
From Stdlib Require Import ZArith Lia.

Local Open Scope nat_scope.

(** ** Values, objects and the store *)

Abbreviation loc := nat.

(** What a dict holds: a string, an integer or a reference to a heap
    object (the metric and dimension lists). *)
Inductive value :=
  | VStr (s : string)
  | VInt (z : Z)
  | VRef (l : loc).

Inductive exn :=
  | ValueError (msg : string)
  | IndexError (msg : string)
  | NameError (name : string)
  | KeyError (key : string)
  | AttributeError (attr : string)
  | TypeError
  | NotImplementedError.

(** The result of running Python code: a value, a raised exception, or no
    result within the step budget ([Timeout], used by [execute] only). *)
Inductive outcome (A : Type) :=
  | Ok (a : A)
  | Raise (e : exn)
  | Timeout.
Arguments Ok {A} a.
Arguments Raise {A} e.
Arguments Timeout {A}.

(** [account.Column]: only its [id] and its name are used here. *)
Record Column := { col_id : string; col_name : string }.

(** One raw response of the transport:
    [{columnHeaders: [{name: ..}, ..], rows: [[..], ..], nextLink?: ..}]. *)
Record Page := {
  columnHeaders : list string;
  page_rows : list (list string);
  nextLink : option string
}.

(** [profile], with [profile.webproperty.account.columns] and
    [profile.webproperty.account.service] flattened into it.  The service
    answers a request (the keyword arguments that [get] receives) knowing the
    requests made before it. *)
Record Profile := {
  profile_id : string;
  profile_name : string;
  columns : list Column;
  service : list (gmap string value) → gmap string value → outcome Page
}.

(** A [Query] instance.  [q_report] is the [report] attribute that
    [__iter__] and [__len__] test with [hasattr]. *)
Record QueryObj := {
  q_raw : loc;
  q_meta : loc;
  q_profile : Profile;
  q_report : option loc
}.

(** A [Report] instance. *)
Record ReportObj := {
  r_raw : Page;
  r_queries : list loc;
  r_headers : list Column;
  r_rows : list (list string);
  r_is_complete : bool
}.

Inductive obj :=
  | OList (xs : list string)
  | ODict (d : gmap string value)
  | OQuery (q : QueryObj)
  | OReport (r : ReportObj).

Record state := {
  heap : list obj;
  log : list (gmap string value)
}.

(** ** The monad of Python computations *)

Definition M (A : Type) : Type := state → outcome A * state.

Definition ret {A} (a : A) : M A := λ s, (Ok a, s).
Definition raise {A} (e : exn) : M A := λ s, (Raise e, s).
Definition timeout {A} : M A := λ s, (Timeout, s).
Definition bind {A B} (m : M A) (k : A → M B) : M B :=
  λ s, match m s with
       | (Ok a, s') => k a s'
       | (Raise e, s') => (Raise e, s')
       | (Timeout, s') => (Timeout, s')
       end.
Definition lift {A} (o : outcome A) : M A := λ s, (o, s).

Declare Scope py_scope.
Delimit Scope py_scope with py.
Notation "'let*' x ':=' m 'in' k" := (bind m (λ x, k))
  (at level 10, x name, m at level 100, k at level 200) : py_scope.
Notation "'do' m 'in' k" := (bind m (λ _, k))
  (at level 10, m at level 100, k at level 200) : py_scope.
Local Open Scope py_scope.

(** *** Store primitives *)

Definition alloc (o : obj) : M loc :=
  λ s, (Ok (length (heap s)), {| heap := heap s ++ [o]; log := log s |}).

Definition store (l : loc) (o : obj) : M unit :=
  λ s, (Ok tt, {| heap := <[l := o]> (heap s); log := log s |}).

Definition load_dict (l : loc) : M (gmap string value) :=
  λ s, match heap s !! l with
       | Some (ODict d) => (Ok d, s)
       | _ => (Raise TypeError, s)
       end.

Definition load_list (l : loc) : M (list string) :=
  λ s, match heap s !! l with
       | Some (OList xs) => (Ok xs, s)
       | _ => (Raise TypeError, s)
       end.

Definition load_query (l : loc) : M QueryObj :=
  λ s, match heap s !! l with
       | Some (OQuery q) => (Ok q, s)
       | _ => (Raise TypeError, s)
       end.

Definition load_report (l : loc) : M ReportObj :=
  λ s, match heap s !! l with
       | Some (OReport r) => (Ok r, s)
       | _ => (Raise TypeError, s)
       end.

(** [service.data().ga().get] called with the entries of [raw] as keyword
    arguments, then [.execute()]: the request is logged. *)
Definition call_service (p : Profile) (req : gmap string value) : M Page :=
  λ s, (service p (log s) req, {| heap := heap s; log := log s ++ [req] |}).

(** *** Python built-ins *)

(** [d[k]] *)
Definition dict_getitem (d : gmap string value) (k : string) : M value :=
  match d !! k with
  | Some v => ret v
  | None => raise (KeyError k)
  end.

(** [d[k] = v] on the dict at [l]. *)
Definition dict_setitem (l : loc) (k : string) (v : value) : M unit :=
  let* d := load_dict l in
  store l (ODict (<[k := v]> d)).

(** [d.update(upd)] on the dict at [l]: the entries of [upd] win. *)
Definition dict_update (l : loc) (upd : gmap string value) : M unit :=
  let* d := load_dict l in
  store l (ODict (upd ∪ d)).

(** [copy(d)]: a new dict with the same entries; the objects the entries
    refer to are not copied. *)
Definition copy (l : loc) : M loc :=
  let* d := load_dict l in
  alloc (ODict d).

(** [d.setdefault(k, [])]: the fresh empty list is built before the call
    and is entered under [k] only when [k] is absent. *)
Definition dict_setdefault_list (l : loc) (k : string) : M value :=
  let* fresh := alloc (OList []) in
  let* d := load_dict l in
  match d !! k with
  | Some v => ret v
  | None =>
      do store l (ODict (<[k := VRef fresh]> d)) in
      ret (VRef fresh)
  end.

(** [v.extend(ys)]: only lists have the method. *)
Definition list_extend (v : value) (ys : list string) : M unit :=
  match v with
  | VRef l =>
      let* xs := load_list l in
      store l (OList (xs ++ ys))
  | _ => raise (AttributeError "extend")
  end.

(** [v.insert(0, y)] *)
Definition list_insert0 (v : value) (y : string) : M unit :=
  match v with
  | VRef l =>
      let* xs := load_list l in
      store l (OList (y :: xs))
  | _ => raise (AttributeError "insert")
  end.

(** [sep.join(v)]: a list of strings, or a string taken character by
    character. *)
Definition str_join (sep : string) (v : value) : M string :=
  match v with
  | VRef l =>
      let* xs := load_list l in
      ret (String.concat sep xs)
  | VStr s =>
      ret (String.concat sep
             (List.map (λ c, String c EmptyString) (String.list_ascii_of_string s)))
  | VInt _ => raise TypeError
  end.

(** [t[i]] on a tuple or list, with Python's negative indices. *)
Definition seq_getitem {A} (what : string) (t : list A) (i : Z) : outcome A :=
  let n := Z.of_nat (length t) in
  let j := if (i <? 0)%Z then (i + n)%Z else i in
  if ((j <? 0) || (n <=? j))%Z then
    Raise (IndexError (what +:+ " index out of range"))
  else
    match t !! Z.to_nat j with
    | Some x => Ok x
    | None => Raise (IndexError (what +:+ " index out of range"))
    end.

(** [t.index(x)] *)
Fixpoint seq_index (x : string) (t : list string) : option nat :=
  match t with
  | [] => None
  | y :: t' => if String.eqb x y then Some 0 else S <$> seq_index x t'
  end.

(** [limit] read with [meta.get('limit', float('inf'))]: [None] is
    infinity. *)
Definition get_limit (d : gmap string value) : outcome (option Z) :=
  match d !! "limit" with
  | None => Ok None
  | Some (VInt z) => Ok (Some z)
  | Some _ => Raise TypeError
  end.

(** [a < b] and [a >= b] where [a] may be infinite. *)
Definition inf_ltb (a : option Z) (b : Z) : bool :=
  match a with
  | None => false
  | Some z => (z <? b)%Z
  end.
Definition geb_inf (a : Z) (b : option Z) : bool :=
  match b with
  | None => false
  | Some z => (z <=? a)%Z
  end.

(** ** [utils] *)

Module utils.

(** Modelled from the spec: the decorator [utils.immutable], which is not
    part of the source at hand.  It clones the receiver (through the
    receiver's own [clone] method), runs the wrapped method against the
    clone and returns the clone, whatever the method returns. *)
Definition immutable {A} (clone : loc → M loc) (method : loc → M A)
    (self : loc) : M loc :=
  let* obj := clone self in
  do method obj in
  ret obj.

End utils.

(** ** [addressable] *)

Module addressable.

(** Modelled from the spec: [addressable.filter] keeps, in the order of the
    catalog, the columns that satisfy the test. *)
Definition filter (test : Column → bool) (cols : list Column) : list Column :=
  List.filter test cols.

(** Modelled from the spec: [columns[value]], the catalog addressed by a
    column's identifier or name; a miss is a lookup error. *)
Definition getitem (cols : list Column) (key : string) : outcome Column :=
  match List.find (λ c, String.eqb (col_id c) key
                        || String.eqb (col_name c) key) cols with
  | Some c => Ok c
  | None => Raise (KeyError key)
  end.

(** Modelled from the spec: [headers.index(key)] compares the key with
    the identifier of each column. *)
Definition index (cols : list Column) (key : string) : option nat :=
  seq_index key (List.map col_id cols).

End addressable.

(** ** [class Report] *)

Module Report.

Definition append (self : loc) (raw : Page) (query : loc) : M unit :=
  let* r := load_report self in
  store self (OReport {|
    r_raw := r_raw r;
    r_queries := r_queries r ++ [query];
    r_headers := r_headers r;
    r_rows := r_rows r ++ page_rows raw;
    r_is_complete := negb (bool_decide (is_Some (nextLink raw)))
  |}).

(** The instance enters the store once its plain attributes are known;
    [is_complete] is first assigned by [append], before [__init__]
    returns. *)
Definition __init__ (raw : Page) (query : loc) : M loc :=
  let* q := load_query query in
  let all_columns := columns (q_profile q) in
  let header_ids := columnHeaders raw in
  let headers :=
    addressable.filter (λ col, bool_decide (col_id col ∈ header_ids))
      all_columns in
  let* self := alloc (OReport {|
    r_raw := raw;
    r_queries := [];
    r_headers := headers;
    r_rows := [];
    r_is_complete := false
  |}) in
  do append self raw query in
  ret self.

(** [[row[i] for row in rows]] *)
Fixpoint column_of (i : nat) (rows : list (list string))
    : outcome (list string) :=
  match rows with
  | [] => Ok []
  | row :: rows' =>
      match seq_getitem "list" row (Z.of_nat i) with
      | Ok x =>
          match column_of i rows' with
          | Ok xs => Ok (x :: xs)
          | Raise e => Raise e
          | Timeout => Timeout
          end
      | Raise e => Raise e
      | Timeout => Timeout
      end
  end.

Definition __getitem__ (self : loc) (key : string) : M (list string) :=
  let* r := load_report self in
  match addressable.index (r_headers r) key with
  | Some i => lift (column_of i (r_rows r))
  | None => raise (ValueError (key +:+ " not in column headers"))
  end.

Definition __iter__ (self : loc) : M (list (list string)) :=
  raise NotImplementedError.

Definition __len__ (self : loc) : M nat :=
  let* r := load_report self in
  ret (length (r_rows r)).

End Report.

(** ** [class Query] *)

(** A column given by name or as an [account.Column]. *)
Inductive colarg :=
  | ByName (s : string)
  | Handle (c : Column).

(** The [metrics] and [dimensions] arguments: one column or a list. *)
Inductive colsarg :=
  | One (v : colarg)
  | Many (vs : list colarg).

Module Query.

Definition _normalize_column (p : Profile) (v : colarg) : outcome Column :=
  match v with
  | Handle c => Ok c
  | ByName s => addressable.getitem (columns p) s
  end.

Definition _serialize_column (p : Profile) (v : colarg) : outcome string :=
  match _normalize_column p v with
  | Ok c => Ok (col_id c)
  | Raise e => Raise e
  | Timeout => Timeout
  end.

Fixpoint serialize_each (p : Profile) (vs : list colarg)
    : outcome (list string) :=
  match vs with
  | [] => Ok []
  | v :: vs' =>
      match _serialize_column p v with
      | Ok x =>
          match serialize_each p vs' with
          | Ok xs => Ok (x :: xs)
          | Raise e => Raise e
          | Timeout => Timeout
          end
      | Raise e => Raise e
      | Timeout => Timeout
      end
  end.

Definition _serialize_columns (p : Profile) (values : colsarg)
    : outcome (list string) :=
  let values := match values with Many vs => vs | One v => [v] end in
  serialize_each p values.

Definition self_raw (self : loc) : M loc :=
  let* q := load_query self in ret (q_raw q).
Definition self_meta (self : loc) : M loc :=
  let* q := load_query self in ret (q_meta q).
Definition self_profile (self : loc) : M Profile :=
  let* q := load_query self in ret (q_profile q).

Definition _specify (self : loc) (metrics dimensions : colsarg) : M loc :=
  let* p := self_profile self in
  let* metrics := lift (_serialize_columns p metrics) in
  let* p := self_profile self in
  let* dimensions := lift (_serialize_columns p dimensions) in
  let* raw := self_raw self in
  let* ms := dict_setdefault_list raw "metrics" in
  do list_extend ms metrics in
  let* raw := self_raw self in
  let* ds := dict_setdefault_list raw "dimensions" in
  do list_extend ds dimensions in
  ret self.

(** [meta] is the content of the dict passed as the [meta] argument, which
    [__init__] only reads.  The instance enters the store when [raw], [meta]
    and [profile] have been assigned; it has no [report] attribute. *)
Definition __init__ (p : Profile) (metrics dimensions : colsarg)
    (meta : gmap string value) : M loc :=
  let* raw := alloc (ODict {[ "ids" := VStr ("ga:" +:+ profile_id p) ]}) in
  let* m := alloc (ODict ∅) in
  do dict_update m meta in
  let* self := alloc (OQuery {|
    q_raw := raw; q_meta := m; q_profile := p; q_report := None |}) in
  do _specify self metrics dimensions in
  ret self.

Definition clone (self : loc) : M loc :=
  let* p := self_profile self in
  let* m := self_meta self in
  let* meta := load_dict m in
  let* query := __init__ p (Many []) (Many []) meta in
  let* raw := self_raw self in
  let* raw' := copy raw in
  let* q := load_query query in
  do store query (OQuery {|
    q_raw := raw'; q_meta := q_meta q; q_profile := q_profile q;
    q_report := q_report q |}) in
  ret query.

Definition specify (metrics dimensions : colsarg) : loc → M loc :=
  utils.immutable clone (λ self, _specify self metrics dimensions).

Definition sort : loc → M loc :=
  utils.immutable clone (λ self, ret tt).

Definition filter : loc → M loc :=
  utils.immutable clone (λ self, ret tt).

End Query.

(** ** [class CoreQuery(Query)] *)

(** An argument that may be an [int] or a [str]. *)
Inductive int_or_str :=
  | AInt (z : Z)
  | AStr (s : string).

(** [if granularity:] is false for [None], [0] and the empty string. *)
Definition truthy (a : option int_or_str) : bool :=
  match a with
  | None => false
  | Some (AInt z) => negb (z =? 0)%Z
  | Some (AStr s) => negb (String.eqb s "")
  end.

Module CoreQuery.

Import Query.

Definition PRECISION_LEVELS : list string :=
  ["FASTER"; "DEFAULT"; "HIGH_PRECISION"].
Definition GRANULARITY_LEVELS : list string :=
  ["year"; "month"; "week"; "day"; "hour"].
Definition GRANULARITY_DIMENSIONS : list string :=
  ["ga:year"; "ga:yearMonth"; "ga:yearWeek"; "ga:date"; "ga:dateHour"].

Section Range.

(** [utils.daterange] is not part of the source at hand; its calendar
    arithmetic is left open. *)
Variable daterange :
  string → option string → Z → Z → outcome (string * string).

Definition range_method (start : string) (stop : option string)
    (months days : Z) (precision : int_or_str)
    (granularity : option int_or_str) (self : loc) : M loc :=
  let* dates := lift (daterange start stop months days) in
  let* raw := self_raw self in
  do dict_update raw
       {[ "start_date" := VStr dates.1; "end_date" := VStr dates.2 ]} in
  let* precision :=
    match precision with
    | AInt i => lift (seq_getitem "tuple" PRECISION_LEVELS i)
    | AStr s => ret s
    end in
  if negb (bool_decide (precision ∈ PRECISION_LEVELS)) then
    let levels := String.concat ", " PRECISION_LEVELS in
    raise (ValueError ("Granularity should be one of: " +:+ levels))
  else
    let* raw := self_raw self in
    do dict_update raw {[ "samplingLevel" := VStr precision ]} in
    do (if truthy granularity then
          let* granularity :=
            match granularity with
            | Some (AStr g) =>
                if bool_decide (g ∈ GRANULARITY_LEVELS) then
                  match seq_index g GRANULARITY_LEVELS with
                  | Some i => ret (Z.of_nat i)
                  | None => raise (ValueError "not in tuple")
                  end
                else
                  (* [options] is not bound anywhere in the module *)
                  raise (NameError "options")
            | Some (AInt i) => ret i
            | None => ret 0%Z
            end in
          let* dimension :=
            lift (seq_getitem "tuple" GRANULARITY_DIMENSIONS granularity) in
          let* raw := self_raw self in
          let* d := load_dict raw in
          let* dims := dict_getitem d "dimensions" in
          list_insert0 dims dimension
        else ret tt) in
    ret self.

Definition range (start : string) (stop : option string) (months days : Z)
    (precision : int_or_str) (granularity : option int_or_str)
    : loc → M loc :=
  utils.immutable clone
    (range_method start stop months days precision granularity).

Definition hours start stop months days precision :=
  range start stop months days precision (Some (AStr "hour")).
Definition days start stop months days precision :=
  range start stop months days precision (Some (AStr "day")).
Definition weeks start stop months days precision :=
  range start stop months days precision (Some (AStr "week")).
Definition months start stop months days precision :=
  range start stop months days precision (Some (AStr "month")).
Definition years start stop months days precision :=
  range start stop months days precision (Some (AStr "year")).

End Range.

Definition step_method (maximum : Z) (self : loc) : M unit :=
  let* raw := self_raw self in
  dict_setitem raw "max_results" (VInt maximum).

Definition step (maximum : Z) : loc → M loc :=
  utils.immutable clone (step_method maximum).

Definition limit_method (_range : list Z) (self : loc) : M loc :=
  let* sm :=
    match _range with
    | [start; maximum] => ret (start, maximum)
    | _ =>
        let* maximum := lift (seq_getitem "tuple" _range 0) in
        ret (1%Z, maximum)
    end in
  let* meta := self_meta self in
  do dict_setitem meta "limit" (VInt sm.2) in
  let* raw := self_raw self in
  do dict_update raw
       {[ "start_index" := VInt sm.1; "max_results" := VInt sm.2 ]} in
  ret self.

Definition limit (_range : list Z) : loc → M loc :=
  utils.immutable clone (limit_method _range).

Definition live (self : loc) : M loc :=
  raise NotImplementedError.

(** [step + 1] where [step] was read from a dict. *)
Definition add1 (v : value) : outcome Z :=
  match v with
  | VInt z => Ok (z + 1)%Z
  | _ => Raise TypeError
  end.

(** [if not start:] holds for [None] and for [0]. *)
Definition next_method (start : option Z) (self : loc) : M loc :=
  let* start :=
    match start with
    | Some z => if (z =? 0)%Z then
                  let* raw := self_raw self in
                  let* d := load_dict raw in
                  lift (add1 (default (VInt 1000) (d !! "max_results")))
                else ret z
    | None =>
        let* raw := self_raw self in
        let* d := load_dict raw in
        lift (add1 (default (VInt 1000) (d !! "max_results")))
    end in
  let* raw := self_raw self in
  do dict_setitem raw "start_index" (VInt start) in
  ret self.

Definition next (start : option Z) : loc → M loc :=
  utils.immutable clone (next_method start).

(** [self.meta.get('limit', float('inf'))] *)
Definition self_limit (self : loc) : M (option Z) :=
  let* meta := self_meta self in
  let* d := load_dict meta in
  lift (get_limit d).

(** [raw[k] = ','.join(self.raw[k])] *)
Definition join_into (raw : loc) (self : loc) (k : string) : M unit :=
  let* sraw := self_raw self in
  let* d := load_dict sraw in
  let* v := dict_getitem d k in
  let* joined := str_join "," v in
  dict_setitem raw k (VStr joined).

(** The [while] loop of [execute], for the query [self] and the report
    built from its first page; [execute_next] is the call of [execute] on
    the follow-up query and [n] bounds the iterations. *)
Section While.

Variable execute_next : loc → M loc.
Variables self report : loc.

Fixpoint while (n : nat) (is_enough : bool) : M loc :=
  let* r := load_report report in
  if negb (is_enough || r_is_complete r) then
    match n with
    | O => timeout
    | S n' =>
        let* next_query := next None self in
        let* next_report := execute_next next_query in
        let* nr := load_report next_report in
        do Report.append report (r_raw nr) next_query in
        let* r := load_report report in
        let* lim := self_limit self in
        while n' (geb_inf (Z.of_nat (length (r_rows r))) lim)
    end
  else ret report.

End While.

(** [execute] calls itself on the follow-up query; [fuel] bounds both the
    depth of these calls and the iterations of each loop. *)
Fixpoint execute (fuel : nat) (self : loc) : M loc :=
  match fuel with
  | O => timeout
  | S fuel' =>
      let* sraw := self_raw self in
      let* raw := copy sraw in
      do join_into raw self "metrics" in
      do join_into raw self "dimensions" in
      let* p := self_profile self in
      let* req := load_dict raw in
      let* response := call_service p req in
      let* lim := self_limit self in
      let is_enough := inf_ltb lim 1000 in
      let* report := Report.__init__ response self in
      while (execute fuel') self report fuel' is_enough
  end.

Definition __getitem__ (self : loc) : M unit := ret tt.

Definition has_report (self : loc) : M bool :=
  let* q := load_query self in
  ret (bool_decide (is_Some (q_report q))).

(** [self.report]: an [AttributeError] when the attribute is not set. *)
Definition self_report (self : loc) : M loc :=
  let* q := load_query self in
  match q_report q with
  | Some r => ret r
  | None => raise (AttributeError "report")
  end.

Definition __iter__ (fuel : nat) (self : loc) : M (list (list string)) :=
  let* has := has_report self in
  do (if negb has then do execute fuel self in ret tt else ret tt) in
  let* report := self_report self in
  Report.__iter__ report.

Definition __len__ (fuel : nat) (self : loc) : M nat :=
  let* has := has_report self in
  do (if negb has then do execute fuel self in ret tt else ret tt) in
  let* report := self_report self in
  Report.__len__ report.

End CoreQuery.

(** ** Observations on the store *)

(** [grow s e rq]: the state [s] after the objects [e] were allocated and
    the requests [rq] were sent. *)
Definition grow (s : state) (e : list obj) (rq : list (gmap string value))
    : state :=
  {| heap := heap s ++ e; log := log s ++ rq |}.

(** A dict entry with the list it refers to read from the store. *)
Inductive dvalue :=
  | DStr (s : string)
  | DInt (z : Z)
  | DList (xs : list string)
  | DOther.

Definition deref (h : list obj) (v : value) : dvalue :=
  match v with
  | VStr s => DStr s
  | VInt z => DInt z
  | VRef l => match h !! l with Some (OList xs) => DList xs | _ => DOther end
  end.

(** The structure of a query as a caller can observe it: its raw
    parameters, the identifier lists included, and its metadata. *)
Definition snapshot (s : state) (q : loc)
    : option (gmap string dvalue * gmap string dvalue) :=
  match heap s !! q with
  | Some (OQuery o) =>
      match heap s !! q_raw o, heap s !! q_meta o with
      | Some (ODict d), Some (ODict m) =>
          Some (deref (heap s) <$> d, deref (heap s) <$> m)
      | _, _ => None
      end
  | _ => None
  end.

(** [q.raw] has the keys [ids], [metrics] and [dimensions]. *)
Definition has_keys (s : state) (q : loc) : Prop :=
  ∃ o d, heap s !! q = Some (OQuery o) ∧ heap s !! q_raw o = Some (ODict d) ∧
         is_Some (d !! "ids") ∧ is_Some (d !! "metrics") ∧
         is_Some (d !! "dimensions").

(** The chain operations with their arguments. *)
Inductive chain_op :=
  | OpSpecify (metrics dimensions : colsarg)
  | OpRange (start : string) (stop : option string) (months days : Z)
      (precision : int_or_str) (granularity : option int_or_str)
  | OpStep (maximum : Z)
  | OpLimit (_range : list Z)
  | OpNext (start : option Z)
  | OpClone
  | OpSort
  | OpFilter.

Section Reachable.

Variable daterange :
  string → option string → Z → Z → outcome (string * string).

Definition run_op (op : chain_op) : loc → M loc :=
  match op with
  | OpSpecify ms ds => Query.specify ms ds
  | OpRange start stop months days precision granularity =>
      CoreQuery.range daterange start stop months days precision granularity
  | OpStep maximum => CoreQuery.step maximum
  | OpLimit _range => CoreQuery.limit _range
  | OpNext start => CoreQuery.next start
  | OpClone => Query.clone
  | OpSort => Query.sort
  | OpFilter => Query.filter
  end.

(** [reachable s q]: in state [s], [q] is a query that was constructed and
    then derived through chain operations, while any other constructions
    and chain operations, successful or not, went on in the same store. *)
Inductive reachable : state → loc → Prop :=
  | reach_init s p ms ds meta q s' :
      Query.__init__ p ms ds meta s = (Ok q, s') →
      reachable s' q
  | reach_op s q op q' s' :
      reachable s q →
      run_op op q s = (Ok q', s') →
      reachable s' q'
  | reach_other_op s q op q0 r s' :
      reachable s q →
      run_op op q0 s = (r, s') →
      reachable s' q
  | reach_other_init s q p ms ds meta r s' :
      reachable s q →
      Query.__init__ p ms ds meta s = (r, s') →
      reachable s' q.

End Reachable.

(** The relations that the operations keep between the state before and
    the state after.  [frame n]: the first [n] objects are untouched.
    [evolves]: a query stays what it is and a dict loses no key. *)
Definition frame (n : nat) (s s' : state) : Prop :=
  take n (heap s') = take n (heap s).

Definition evolves (s s' : state) : Prop :=
  length (heap s) ≤ length (heap s') ∧
  ∀ l o, heap s !! l = Some o →
    match o with
    | ODict d => ∃ d', heap s' !! l = Some (ODict d') ∧ dom d ⊆ dom d'
    | OQuery q => heap s' !! l = Some (OQuery q)
    | _ => True
    end.

(** [sat I R m φ]: from a state in [I], [m] ends in [I], relates the two
    states by [R] and returns only values in [φ]. *)
Definition sat {A} (I : state → Prop) (R : state → state → Prop)
    (m : M A) (φ : A → Prop) : Prop :=
  ∀ s, I s →
    I (m s).2 ∧ R s (m s).2 ∧ ∀ a, (m s).1 = Ok a → φ a.

(** The objects that [Query.__init__] allocates, from address [n] on, when
    the columns resolve to [ms] and [ds]. *)
Definition init_objs (n : nat) (p : Profile) (meta : gmap string value)
    (ms ds : list string) : list obj :=
  [ ODict {[ "dimensions" := VRef (n + 4); "metrics" := VRef (n + 3);
             "ids" := VStr ("ga:" +:+ profile_id p) ]};
    ODict (meta ∪ ∅);
    OQuery {| q_raw := n + 0; q_meta := n + 1; q_profile := p;
              q_report := None |};
    OList ms; OList ds ].

(** The objects [clone] adds for a query [o] with metadata [md] whose raw
    dict reads [d]. *)
Definition clone_objs (n : nat) (o : QueryObj) (md d : gmap string value)
    : list obj :=
  [ ODict {[ "dimensions" := VRef (n + 4); "metrics" := VRef (n + 3);
             "ids" := VStr ("ga:" +:+ profile_id (q_profile o)) ]};
    ODict (md ∪ ∅);
    OQuery {| q_raw := n + 5; q_meta := n + 1; q_profile := q_profile o;
              q_report := None |};
    OList []; OList []; ODict d ].

(** [above n s]: the store of [s] holds at least [n] objects. *)
Definition above (n : nat) (s : state) : Prop := n ≤ length (heap s).

(** ** Scenarios *)

Definition empty_state : state := {| heap := []; log := [] |}.

Definition ga_date : Column := {| col_id := "ga:date"; col_name := "date" |}.
Definition ga_sessions : Column :=
  {| col_id := "ga:sessions"; col_name := "sessions" |}.

Definition int_param (dflt : Z) (req : gmap string value) (k : string) : Z :=
  match req !! k with
  | Some (VInt z) => z
  | _ => dflt
  end.

(** A transport over a finite table [data]: it serves the rows from
    [start_index] (default 1), at most [max_results] (default 1000) of them,
    with a [nextLink] exactly when rows remain after the page. *)
Definition paged (data : list (list string))
    (_ : list (gmap string value)) (req : gmap string value) : outcome Page :=
  let start := Z.to_nat (int_param 1 req "start_index" - 1) in
  let size := Z.to_nat (int_param 1000 req "max_results") in
  Ok {| columnHeaders := ["ga:date"; "ga:sessions"];
        page_rows := take size (drop start data);
        nextLink := if decide (start + size < length data)
                    then Some "next" else None |}.

Definition paged_profile (data : list (list string)) : Profile :=
  {| profile_id := "12345"; profile_name := "site";
     columns := [ga_date; ga_sessions]; service := paged data |}.

Definition fixed_dates (start : string) (stop : option string)
    (months days : Z) : outcome (string * string) :=
  Ok (start, default start stop).

(** The two pages of the pagination scenario: the first request has no
    [start_index], the follow-up asks for index 1001. *)
Definition two_pages (_ : list (gmap string value))
    (req : gmap string value) : outcome Page :=
  match req !! "start_index" with
  | None =>
      Ok {| columnHeaders := ["ga:date"; "ga:sessions"];
            page_rows := [["20230101"; "10"]];
            nextLink := Some "..." |}
  | Some (VInt 1001) =>
      Ok {| columnHeaders := ["ga:date"; "ga:sessions"];
            page_rows := [["20230102"; "20"]];
            nextLink := None |}
  | Some _ => Raise (ValueError "no such page")
  end.

Definition two_pages_profile (catalog : list Column) : Profile :=
  {| profile_id := "12345"; profile_name := "site";
     columns := catalog; service := two_pages |}.

(** The start indices asked for, in order. *)
Definition start_indices (s : state) : list (option value) :=
  (λ req, req !! "start_index") <$> log s.

(** A profile over a one-row table, and a query on it built from column
    names: [Query(profile, metrics='sessions', dimensions=['date'])].  The
    query is the object at address 2. *)
Definition demo_profile : Profile := paged_profile [["20230101"; "10"]].
Definition demo_init : outcome loc * state :=
  Query.__init__ demo_profile (One (ByName "sessions"))
    (Many [ByName "date"]) ∅ empty_state.

(** [q.raw[k]] as a caller reads it. *)
Definition raw_of (s : state) (q : loc) (k : string) : option dvalue :=
  match snapshot s q with
  | Some (raw, _) => raw !! k
  | None => None
  end.

(** [Query(profile)] with no columns; the query is at address 2. *)
Definition bare_init : outcome loc * state :=
  Query.__init__ demo_profile (Many []) (Many []) ∅ empty_state.

(** A table of [n] equal rows. *)
Definition table (n : nat) : list (list string) :=
  List.repeat ["20230101"; "10"] n.

(** [q = Query(profile, 'sessions', ['date']).limit(1000)] over 1001 rows,
    then [q.execute()]. *)
Definition limit_1000_run : outcome loc * state :=
  (let* q0 := Query.__init__ (paged_profile (table 1001))
                (One (ByName "sessions")) (Many [ByName "date"]) ∅ in
   let* q := CoreQuery.limit [1000%Z] q0 in
   CoreQuery.execute 5 q) empty_state.

(** [q = Query(profile, 'sessions', ['date']).limit(10).step(2)] over 5
    rows, then [q.execute()]. *)
Definition limit_10_step_2_run : outcome loc * state :=
  (let* q0 := Query.__init__ (paged_profile (table 5))
                (One (ByName "sessions")) (Many [ByName "date"]) ∅ in
   let* q1 := CoreQuery.limit [10%Z] q0 in
   let* q := CoreQuery.step 2 q1 in
   CoreQuery.execute 5 q) empty_state.

(** The rows and the completeness flag of the report at [r]. *)
Definition report_rows (s : state) (r : loc) : option (list (list string)) :=
  match heap s !! r with
  | Some (OReport o) => Some (r_rows o)
  | _ => None
  end.
Definition report_complete (s : state) (r : loc) : option bool :=
  match heap s !! r with
  | Some (OReport o) => Some (r_is_complete o)
  | _ => None
  end.

(** The pagination scenario over a catalog: a query for the metric
    [ga:sessions] by the dimension [ga:date], executed against the two
    pages. *)
Definition two_pages_run (catalog : list Column) (fuel : nat)
    : outcome loc * state :=
  (let* q := Query.__init__ (two_pages_profile catalog)
               (Many [Handle ga_sessions]) (Many [Handle ga_date]) ∅ in
   CoreQuery.execute fuel q) empty_state.

(** What the scenario is said to end in: [execute] returns a report with
    the two rows, complete, whose column [ga:sessions] reads 10, 20. *)
Definition pagination_outcome (catalog : list Column) : Prop :=
  ∃ fuel report s,
    two_pages_run catalog fuel = (Ok report, s) ∧
    report_rows s report
      = Some [["20230101"; "10"]; ["20230102"; "20"]] ∧
    report_complete s report = Some true ∧
    (Report.__getitem__ report "ga:sessions" s).1 = Ok ["10"; "20"].

(** [q = Query(profile, 'sessions', ['date']).step(1)] over a table of
    three rows, then [q.execute()]: three pages of one row. *)
Definition three_pages_run (fuel : nat) : outcome loc * state :=
  (let* q0 := Query.__init__ (paged_profile (table 3))
                (One (ByName "sessions")) (Many [ByName "date"]) ∅ in
   let* q := CoreQuery.step 1 q0 in
   CoreQuery.execute fuel q) empty_state.

(** [stuck s q]: [q] is a query on the three-row table with pages of one
    row and no limit, whose first row is row 1 or row 2. *)
Definition stuck (s : state) (q : loc) : Prop :=
  ∃ o d md lm ld ms ds,
    heap s !! q = Some (OQuery o) ∧
    q_profile o = paged_profile (table 3) ∧
    heap s !! q_raw o = Some (ODict d) ∧
    (d !! "start_index" = None ∨ d !! "start_index" = Some (VInt 2)) ∧
    d !! "max_results" = Some (VInt 1) ∧
    d !! "metrics" = Some (VRef lm) ∧ heap s !! lm = Some (OList ms) ∧
    d !! "dimensions" = Some (VRef ld) ∧ heap s !! ld = Some (OList ds) ∧
    heap s !! q_meta o = Some (ODict md) ∧
    md !! "limit" = None.

(** ** Further observations *)

(** The entries of [q.raw] and of [q.meta]. *)
Definition raw_dict (s : state) (q : loc) : option (gmap string value) :=
  match heap s !! q with
  | Some (OQuery o) =>
      match heap s !! q_raw o with
      | Some (ODict d) => Some d
      | _ => None
      end
  | _ => None
  end.

Definition meta_dict (s : state) (q : loc) : option (gmap string value) :=
  match heap s !! q with
  | Some (OQuery o) =>
      match heap s !! q_meta o with
      | Some (ODict d) => Some d
      | _ => None
      end
  | _ => None
  end.

(** The list that the entry [k] of [q.raw] refers to. *)
Definition raw_list (s : state) (q : loc) (k : string)
    : option (list string) :=
  match raw_dict s q with
  | Some d =>
      match d !! k with
      | Some (VRef l) =>
          match heap s !! l with
          | Some (OList xs) => Some xs
          | _ => None
          end
      | _ => None
      end
  | None => None
  end.

(** [fresh_query s s' q]: [q] is a query object of [s'] that did not exist
    in [s], with its own raw and meta dicts and no [report] attribute. *)
Definition fresh_query (s s' : state) (q : loc) : Prop :=
  ∃ o, heap s' !! q = Some (OQuery o) ∧
       length (heap s) ≤ q ∧ length (heap s) ≤ q_raw o ∧
       length (heap s) ≤ q_meta o ∧ q_report o = None.

(** [untouched s s']: every object of [s] is in [s'] as it was. *)
Definition untouched (s s' : state) : Prop :=
  ∀ l o, heap s !! l = Some o → heap s' !! l = Some o.

(** The state [s] with the object at [l] replaced. *)
Definition upd (s : state) (l : loc) (o : obj) : state :=
  {| heap := <[l := o]> (heap s); log := log s |}.

(** The query of [demo_init] as an object, and the entries of its raw
    dict. *)
Definition demo_query : QueryObj :=
  {| q_raw := 0; q_meta := 1; q_profile := demo_profile; q_report := None |}.
Definition demo_raw : gmap string value :=
  {[ "dimensions" := VRef 4; "metrics" := VRef 3;
     "ids" := VStr "ga:12345" ]}.

(** The objects a chain operation leaves behind for its clone: the dicts
    of the instance that [__init__] built, the clone itself with metadata
    [md] and raw parameters [d], and the two lists of that instance. *)
Definition query_objs (n : nat) (p : Profile) (md d : gmap string value)
    : list obj :=
  [ ODict {[ "dimensions" := VRef (n + 4); "metrics" := VRef (n + 3);
             "ids" := VStr ("ga:" +:+ profile_id p) ]};
    ODict md;
    OQuery {| q_raw := n + 5; q_meta := n + 1; q_profile := p;
              q_report := None |};
    OList []; OList []; ODict d ].

(** The keyword arguments that [execute] sends for a query whose raw
    dict holds [d], with metrics [ms] and dimensions [ds]. *)
Definition request_of (d : gmap string value) (ms ds : list string)
    : gmap string value :=
  <["dimensions" := VStr (String.concat "," ds)]>
    (<["metrics" := VStr (String.concat "," ms)]> d).

(** ** Further scenarios *)

(** A page of one row with no next link. *)
Definition demo_page : Page :=
  {| columnHeaders := ["ga:date"; "ga:sessions"];
     page_rows := [["20230101"; "10"]];
     nextLink := None |}.

(** A report of two rows, the second of which lacks its last cell, alone
    in the store; and the same report with both rows whole. *)
Definition ragged_report : ReportObj :=
  {| r_raw := demo_page; r_queries := [2];
     r_headers := [ga_date; ga_sessions];
     r_rows := [["20230101"; "10"]; ["20230102"]];
     r_is_complete := true |}.
Definition whole_report : ReportObj :=
  {| r_raw := demo_page; r_queries := [2];
     r_headers := [ga_date; ga_sessions];
     r_rows := [["20230101"; "10"]; ["20230102"; "20"]];
     r_is_complete := true |}.
Definition ragged_state : state :=
  {| heap := [OReport ragged_report]; log := [] |}.
Definition whole_state : state :=
  {| heap := [OReport whole_report]; log := [] |}.

(** A query whose [report] attribute has been set by its user: the source
    never assigns it. *)
Definition executed_state : state :=
  {| heap := [ ODict ∅; ODict ∅;
               OQuery {| q_raw := 0; q_meta := 1; q_profile := demo_profile;
                         q_report := Some 3 |};
               OReport whole_report ];
     log := [] |}.

(** [Query(profile).next(5)] over the transport of two pages, which has
    no page at index 5; the query is at address 7. *)
Definition off_page_init : outcome loc * state :=
  (let* q := Query.__init__ (two_pages_profile []) (Many []) (Many []) ∅ in
   CoreQuery.next (Some 5%Z) q) empty_state.
Definition off_page_raw : gmap string value :=
  {[ "start_index" := VInt 5; "dimensions" := VRef 4; "metrics" := VRef 3;
     "ids" := VStr "ga:12345" ]}.

(** * Proofs *)

Import Query CoreQuery.

(** ** Running a computation step by step *)

Section Run.
Context {A B : Type}.
Implicit Types (s : state) (e : list obj) (k : A → M B).

Lemma grow_nil s : grow s [] [] = s.
Proof. destruct s; unfold grow; cbn. by rewrite !app_nil_r. Qed.

Lemma grow_grow s e1 rq1 e2 rq2 :
  grow (grow s e1 rq1) e2 rq2 = grow s (e1 ++ e2) (rq1 ++ rq2).
Proof. unfold grow; cbn. by rewrite !app_assoc. Qed.

Lemma bind_ret_r (m : M A) s : bind m ret s = m s.
Proof. unfold bind, ret. by destruct (m s) as [[]]. Qed.

Lemma bind_assoc {C} (m : M C) (k1 : C → M A) k s :
  bind (bind m k1) k s = bind m (λ c, bind (k1 c) k) s.
Proof. unfold bind. by destruct (m s) as [[]]. Qed.

Lemma bind_eq (m : M A) k s r s' :
  m s = (r, s') →
  bind m k s = match r with
               | Ok a => k a s'
               | Raise x => (Raise x, s')
               | Timeout => (Timeout, s')
               end.
Proof. unfold bind. by intros ->. Qed.

Lemma run_ret (a : A) k s : bind (ret a) k s = k a s.
Proof. done. Qed.

Lemma run_raise x k s : bind (raise x) k s = (Raise x, s).
Proof. done. Qed.

Lemma run_timeout k s : bind timeout k s = (Timeout, s).
Proof. done. Qed.

Lemma run_lift (o : outcome A) k s :
  bind (lift o) k s =
  match o with
  | Ok a => k a s
  | Raise x => (Raise x, s)
  | Timeout => (Timeout, s)
  end.
Proof. by destruct o. Qed.

End Run.

Section RunStore.
Context {B : Type}.
Implicit Types (s : state) (e : list obj).

Lemma lookup_grow_fresh s e rq i :
  heap (grow s e rq) !! (length (heap s) + i) = e !! i.
Proof. cbn. by rewrite lookup_app_r, Nat.add_comm, Nat.add_sub by lia. Qed.

Lemma lookup_grow_old s e rq l o :
  heap s !! l = Some o → heap (grow s e rq) !! l = Some o.
Proof. apply lookup_app_l_Some. Qed.

Lemma run_alloc o (k : loc → M B) s e rq :
  bind (alloc o) k (grow s e rq) =
  k (length (heap s) + length e) (grow s (e ++ [o]) rq).
Proof. unfold bind, alloc, grow; cbn. by rewrite length_app, app_assoc. Qed.

Lemma run_store i o (k : unit → M B) s e rq :
  bind (store (length (heap s) + i) o) k (grow s e rq) =
  k tt (grow s (<[i:=o]> e) rq).
Proof. unfold bind, store, grow; cbn. by rewrite insert_app_r. Qed.

Lemma run_load_dict l (k : gmap string value → M B) s :
  bind (load_dict l) k s =
  match heap s !! l with
  | Some (ODict d) => k d s
  | _ => (Raise TypeError, s)
  end.
Proof. unfold bind, load_dict. by destruct (heap s !! l) as [[]|]. Qed.

Lemma run_load_list l (k : list string → M B) s :
  bind (load_list l) k s =
  match heap s !! l with
  | Some (OList xs) => k xs s
  | _ => (Raise TypeError, s)
  end.
Proof. unfold bind, load_list. by destruct (heap s !! l) as [[]|]. Qed.

Lemma run_load_query l (k : QueryObj → M B) s :
  bind (load_query l) k s =
  match heap s !! l with
  | Some (OQuery q) => k q s
  | _ => (Raise TypeError, s)
  end.
Proof. unfold bind, load_query. by destruct (heap s !! l) as [[]|]. Qed.

Lemma run_load_report l (k : ReportObj → M B) s :
  bind (load_report l) k s =
  match heap s !! l with
  | Some (OReport r) => k r s
  | _ => (Raise TypeError, s)
  end.
Proof. unfold bind, load_report. by destruct (heap s !! l) as [[]|]. Qed.

Lemma run_call_service p req (k : Page → M B) s e rq :
  bind (call_service p req) k (grow s e rq) =
  match service p (log s ++ rq) req with
  | Ok a => k a (grow s e (rq ++ [req]))
  | Raise x => (Raise x, grow s e (rq ++ [req]))
  | Timeout => (Timeout, grow s e (rq ++ [req]))
  end.
Proof.
  unfold bind, call_service, grow; cbn. rewrite app_assoc.
  by destruct (service _ _ _).
Qed.

End RunStore.

Ltac lookup_norm :=
  repeat first
    [ rewrite lookup_grow_fresh
    | erewrite lookup_grow_old by eassumption
    | match goal with
      | H : ?h !! ?l = _ |- context [?h !! ?l] => rewrite H
      end ].

Ltac run1 :=
  first
    [ rewrite bind_assoc
    | rewrite run_ret
    | rewrite run_raise
    | rewrite run_timeout
    | rewrite run_lift
    | rewrite run_alloc
    | rewrite run_store
    | rewrite run_load_dict; lookup_norm
    | rewrite run_load_list; lookup_norm
    | rewrite run_load_query; lookup_norm
    | rewrite run_load_report; lookup_norm
    | rewrite run_call_service
    | rewrite lookup_insert_eq
    | rewrite lookup_insert_ne by done
    | rewrite lookup_singleton_eq
    | rewrite lookup_singleton_ne by done
    | rewrite lookup_empty
    | match goal with
      | H : ?h !! ?l = _ |- context [?h !! ?l] => rewrite H
      end ];
  cbn [length app lookup list_lookup insert list_insert Nat.add
       q_raw q_meta q_profile q_report fst snd
       r_raw r_queries r_headers r_rows r_is_complete
       columnHeaders page_rows nextLink].

Ltac run := repeat run1.

Ltac unfold_py :=
  unfold dict_getitem, dict_setitem, dict_update, copy, dict_setdefault_list,
    list_extend, list_insert0, self_raw, self_meta, self_profile.

Lemma run_start {A} (m : M A) s : m s = bind m ret (grow s [] []).
Proof. by rewrite grow_nil, bind_ret_r. Qed.
(** ** [Query.__init__] and [clone] in closed form *)

Lemma init_ok p metrics dimensions meta ms ds s :
  _serialize_columns p metrics = Ok ms →
  _serialize_columns p dimensions = Ok ds →
  Query.__init__ p metrics dimensions meta s =
  (Ok (length (heap s) + 2),
   grow s (init_objs (length (heap s)) p meta ms ds) []).
Proof.
  intros Hm Hd. rewrite run_start.
  unfold Query.__init__, _specify. unfold_py. run. rewrite Hm. run. rewrite Hd. run.
  done.
Qed.

Lemma init_grows p metrics dimensions meta s :
  ∃ e, (Query.__init__ p metrics dimensions meta s).2 = grow s e [].
Proof.
  rewrite run_start.
  unfold Query.__init__, _specify. unfold_py. run.
  destruct (_serialize_columns p metrics); run; [|by eexists..].
  destruct (_serialize_columns p dimensions); run; by eexists.
Qed.

Lemma clone_spec self s :
  match clone self s with
  | (Ok q', s') =>
      ∃ o md d,
        heap s !! self = Some (OQuery o) ∧
        heap s !! q_meta o = Some (ODict md) ∧
        heap (grow s (init_objs (length (heap s)) (q_profile o) md [] []) [])
          !! q_raw o = Some (ODict d) ∧
        q' = length (heap s) + 2 ∧
        s' = grow s (clone_objs (length (heap s)) o md d) []
  | (_, s') => ∃ e, s' = grow s e []
  end.
Proof.
  rewrite <- (bind_ret_r (clone self)). unfold clone, self_profile, self_meta.
  run. destruct (heap s !! self) as [[| |o|]|] eqn:Hself;
    try (by exists []; rewrite grow_nil).
  run.
  destruct (heap s !! q_meta o) as [[|md| |]|] eqn:Hmeta;
    try (by exists []; rewrite grow_nil).
  run. erewrite bind_eq by (by apply init_ok).
  unfold self_raw, copy. run.
  destruct (heap (grow s (init_objs _ _ _ _ _) []) !! q_raw o)
    as [[|d| |]|] eqn:Hraw.
  all: try solve [eexists; reflexivity].
  unfold init_objs at 1. run. unfold ret. by exists o, md, d.
Qed.

(** ** Composing what operations keep *)

Section Sat.
Variable I : state → Prop.
Variable R : state → state → Prop.
Hypothesis R_refl : ∀ s, R s s.
Hypothesis R_trans : ∀ s1 s2 s3, R s1 s2 → R s2 s3 → R s1 s3.

Lemma sat_ret {A} (a : A) (φ : A → Prop) : φ a → sat I R (ret a) φ.
Proof. intros Ha s Hs; cbn. repeat split; auto. by intros ? [= <-]. Qed.

Lemma sat_raise {A} x (φ : A → Prop) : sat I R (raise x) φ.
Proof. intros s Hs; cbn. repeat split; auto. done. Qed.

Lemma sat_timeout {A} (φ : A → Prop) : sat I R timeout φ.
Proof. intros s Hs; cbn. repeat split; auto. done. Qed.

Lemma sat_lift {A} (o : outcome A) (φ : A → Prop) :
  (∀ a, o = Ok a → φ a) → sat I R (lift o) φ.
Proof. intros Ho s Hs; cbn. repeat split; auto. Qed.

Lemma sat_bind {A B} (m : M A) (k : A → M B) (φ : A → Prop) (ψ : B → Prop) :
  sat I R m φ → (∀ a, φ a → sat I R (k a) ψ) → sat I R (bind m k) ψ.
Proof.
  intros Hm Hk s Hs. destruct (Hm s Hs) as (HI & HR & Hφ).
  unfold bind. destruct (m s) as [[a|x|] s1]; cbn in *; [|done..].
  destruct (Hk a (Hφ a eq_refl) s1 HI) as (HI' & HR' & Hψ). eauto.
Qed.

Lemma sat_weaken {A} (m : M A) (φ ψ : A → Prop) :
  sat I R m φ → (∀ a, φ a → ψ a) → sat I R m ψ.
Proof.
  intros Hm Himp s Hs. destruct (Hm s Hs) as (? & ? & ?). eauto.
Qed.

(** A computation that only reads the state. *)
Lemma sat_reads {A} (m : M A) :
  (∀ s, (m s).2 = s) → sat I R m (λ _, True).
Proof. intros Hm s Hs. rewrite Hm. auto. Qed.

End Sat.

Lemma load_dict_reads l s : (load_dict l s).2 = s.
Proof. unfold load_dict. by destruct (heap s !! l) as [[]|]. Qed.

Lemma load_list_reads l s : (load_list l s).2 = s.
Proof. unfold load_list. by destruct (heap s !! l) as [[]|]. Qed.

Lemma load_query_reads l s : (load_query l s).2 = s.
Proof. unfold load_query. by destruct (heap s !! l) as [[]|]. Qed.

Lemma load_report_reads l s : (load_report l s).2 = s.
Proof. unfold load_report. by destruct (heap s !! l) as [[]|]. Qed.

Lemma self_raw_reads self s : (self_raw self s).2 = s.
Proof.
  unfold self_raw, bind, load_query. by destruct (heap s !! self) as [[]|].
Qed.

Lemma self_meta_reads self s : (self_meta self s).2 = s.
Proof.
  unfold self_meta, bind, load_query. by destruct (heap s !! self) as [[]|].
Qed.

Lemma self_profile_reads self s : (self_profile self s).2 = s.
Proof.
  unfold self_profile, bind, load_query. by destruct (heap s !! self) as [[]|].
Qed.

Lemma self_limit_reads self s : (self_limit self s).2 = s.
Proof.
  unfold self_limit, self_meta, bind, load_query, load_dict, lift, ret.
  destruct (heap s !! self) as [[]|]; try done; cbn.
  by destruct (heap s !! _) as [[]|].
Qed.

Lemma dict_getitem_reads d k s : (dict_getitem d k s).2 = s.
Proof. unfold dict_getitem. by destruct (d !! k). Qed.

Lemma str_join_reads sep v s : (str_join sep v s).2 = s.
Proof.
  unfold str_join. destruct v; try done. unfold bind, load_list, ret.
  by destruct (heap s !! l) as [[]|].
Qed.

(** ** The frame of [execute] *)

Section Frame.
Variable n : nat.

Local Notation "'framed'" := (sat (above n) (frame n)).

Lemma frame_refl s : frame n s s.
Proof. done. Qed.

Lemma frame_trans s1 s2 s3 : frame n s1 s2 → frame n s2 s3 → frame n s1 s3.
Proof. unfold frame. congruence. Qed.

Lemma framed_grows {A} (m : M A) :
  (∀ s, ∃ e rq, (m s).2 = grow s e rq) → framed m (λ _, True).
Proof.
  intros Hm s Hs. destruct (Hm s) as (e & rq & ->). unfold above, frame in *.
  cbn. rewrite length_app, take_app_le by lia. repeat split; auto; lia.
Qed.

Lemma framed_alloc o : framed (alloc o) (λ l, n ≤ l).
Proof.
  intros s Hs. unfold above, frame in *. cbn.
  rewrite length_app, take_app_le by lia. repeat split; [lia|].
  by intros ? [= <-].
Qed.

Lemma framed_store l o : n ≤ l → framed (store l o) (λ _, True).
Proof.
  intros Hl s Hs. unfold above, frame in *. cbn.
  rewrite length_insert, take_insert_ge by lia. done.
Qed.

Lemma framed_reads {A} (m : M A) :
  (∀ s, (m s).2 = s) → framed m (λ _, True).
Proof. apply sat_reads, frame_refl. Qed.

Lemma framed_bind {A B} (m : M A) (k : A → M B) (φ : A → Prop) ψ :
  framed m φ → (∀ a, φ a → framed (k a) ψ) → framed (bind m k) ψ.
Proof. apply sat_bind, frame_trans. Qed.

Lemma framed_copy l : framed (copy l) (λ l', n ≤ l').
Proof.
  eapply framed_bind; [apply framed_reads, load_dict_reads|].
  intros d _. apply framed_alloc.
Qed.

Lemma framed_dict_setitem l k v :
  n ≤ l → framed (dict_setitem l k v) (λ _, True).
Proof.
  intros Hl. eapply framed_bind; [apply framed_reads, load_dict_reads|].
  intros d _. by apply framed_store.
Qed.

Lemma framed_join_into raw self k :
  n ≤ raw → framed (join_into raw self k) (λ _, True).
Proof.
  intros Hl. unfold join_into.
  eapply framed_bind; [apply framed_reads, self_raw_reads|]. intros sraw _.
  eapply framed_bind; [apply framed_reads, load_dict_reads|]. intros d _.
  eapply framed_bind; [apply framed_reads, dict_getitem_reads|]. intros v _.
  eapply framed_bind; [apply framed_reads, str_join_reads|]. intros joined _.
  by apply framed_dict_setitem.
Qed.

Lemma framed_append self raw query :
  n ≤ self → framed (Report.append self raw query) (λ _, True).
Proof.
  intros Hl. eapply framed_bind; [apply framed_reads, load_report_reads|].
  intros r _. by apply framed_store.
Qed.

Lemma framed_report_init raw query :
  framed (Report.__init__ raw query) (λ r, n ≤ r).
Proof.
  eapply framed_bind; [apply framed_reads, load_query_reads|]. intros q _.
  eapply framed_bind; [apply framed_alloc|]. intros self Hself.
  eapply framed_bind; [by apply framed_append|]. intros _ _.
  by apply sat_ret.
Qed.

Lemma framed_call_service p req :
  framed (call_service p req) (λ _, True).
Proof.
  apply framed_grows. intros s. exists [], [req].
  unfold call_service, grow; cbn. by rewrite app_nil_r.
Qed.

End Frame.
(** [utils.immutable]: either [clone] fails, having allocated at most, or
    the method runs on the clone in its closed form. *)
Lemma immutable_clone_spec {A} (method : loc → M A) self s :
  (∃ e, (utils.immutable clone method self s).2 = grow s e [] ∧
        ∀ q', (utils.immutable clone method self s).1 ≠ Ok q') ∨
  (∃ o md d,
     heap s !! self = Some (OQuery o) ∧
     heap s !! q_meta o = Some (ODict md) ∧
     heap (grow s (init_objs (length (heap s)) (q_profile o) md [] []) [])
       !! q_raw o = Some (ODict d) ∧
     utils.immutable clone method self s =
       bind (method (length (heap s) + 2)) (λ _, ret (length (heap s) + 2))
         (grow s (clone_objs (length (heap s)) o md d) [])).
Proof.
  pose proof (clone_spec self s) as Hc. unfold utils.immutable.
  destruct (clone self s) as [[q'|x|] s1] eqn:Hq;
    rewrite !(bind_eq _ _ _ _ _ Hq).
  - destruct Hc as (o & md & d & ? & ? & ? & -> & ->). right. by exists o, md, d.
  - left. destruct Hc as [e ->]. by exists e.
  - left. destruct Hc as [e ->]. by exists e.
Qed.

(** The methods behind [step], [limit] and [next] store into their receiver
    only: run on a clone they leave the objects before it alone. *)
Lemma step_grows maximum self s :
  ∃ e, (step maximum self s).2 = grow s e [].
Proof.
  unfold step.
  destruct (immutable_clone_spec (step_method maximum) self s)
    as [(e & He & _)|(o & md & d & _ & _ & _ & ->)]; [by exists e|].
  unfold clone_objs, step_method. unfold_py. run. by eexists.
Qed.

Lemma sort_grows self s : ∃ e, (sort self s).2 = grow s e [].
Proof.
  unfold sort.
  destruct (immutable_clone_spec (λ _, ret tt) self s)
    as [(e & He & _)|(o & md & d & _ & _ & _ & Heq)]; [by exists e|].
  rewrite Heq. run. by eexists.
Qed.

Lemma limit_grows _range self s :
  ∃ e, (limit _range self s).2 = grow s e [].
Proof.
  unfold limit.
  destruct (immutable_clone_spec (limit_method _range) self s)
    as [(e & He & _)|(o & md & d & _ & _ & _ & ->)]; [by exists e|].
  unfold clone_objs, limit_method. unfold_py.
  destruct _range as [|a [|b [|c r]]]; run;
    try destruct (seq_getitem _ _ _); run; by eexists.
Qed.

Lemma next_grows start self s :
  ∃ e, (next start self s).2 = grow s e [].
Proof.
  unfold next.
  destruct (immutable_clone_spec (next_method start) self s)
    as [(e & He & _)|(o & md & d & _ & _ & _ & ->)]; [by exists e|].
  unfold clone_objs, next_method. unfold_py.
  destruct start as [z|]; [destruct (z =? 0)%Z|]; run;
    try destruct (add1 _); run; by eexists.
Qed.

Section FrameExecute.
Variable n : nat.

Local Notation "'framed'" := (sat (above n) (frame n)).

Lemma framed_next start self : framed (next start self) (λ _, True).
Proof.
  apply framed_grows. intros s. destruct (next_grows start self s) as [e He].
  by exists e, [].
Qed.

Lemma framed_while (execute_next : loc → M loc) self report :
  (∀ q, framed (execute_next q) (λ _, True)) →
  n ≤ report →
  ∀ k is_enough,
    framed (while execute_next self report k is_enough) (λ _, True).
Proof.
  intros Hexec Hreport k. induction k as [|k IH]; intros is_enough; cbn [while].
  - eapply framed_bind; [apply framed_reads, load_report_reads|]. intros r _.
    destruct (negb _); [apply sat_timeout | by apply sat_ret]; apply frame_refl.
  - eapply framed_bind; [apply framed_reads, load_report_reads|]. intros r _.
    destruct (negb _); [|by apply sat_ret; [apply frame_refl|]].
    eapply framed_bind; [apply framed_next|]. intros next_query _.
    eapply framed_bind; [apply Hexec|]. intros next_report _.
    eapply framed_bind; [apply framed_reads, load_report_reads|]. intros nr _.
    eapply framed_bind; [by apply framed_append|]. intros _ _.
    eapply framed_bind; [apply framed_reads, load_report_reads|]. intros r' _.
    eapply framed_bind; [apply framed_reads, self_limit_reads|]. intros lim _.
    apply IH.
Qed.

Lemma framed_execute fuel : ∀ self, framed (execute fuel self) (λ _, True).
Proof.
  induction fuel as [|fuel IH]; intros self; cbn [execute].
  - apply sat_timeout, frame_refl.
  - eapply framed_bind; [apply framed_reads, self_raw_reads|]. intros sraw _.
    eapply framed_bind; [apply framed_copy|]. intros raw Hraw.
    eapply framed_bind; [by apply framed_join_into|]. intros _ _.
    eapply framed_bind; [by apply framed_join_into|]. intros _ _.
    eapply framed_bind; [apply framed_reads, self_profile_reads|]. intros p _.
    eapply framed_bind; [apply framed_reads, load_dict_reads|]. intros req _.
    eapply framed_bind; [apply framed_call_service|]. intros response _.
    eapply framed_bind; [apply framed_reads, self_limit_reads|]. intros lim _.
    eapply framed_bind; [apply framed_report_init|]. intros report Hreport.
    by apply framed_while.
Qed.

End FrameExecute.

(** Whatever [execute] does, the objects of the store it started from are
    as they were. *)
Lemma execute_preserves fuel self s l o :
  heap s !! l = Some o → heap (execute fuel self s).2 !! l = Some o.
Proof.
  intros Hl. destruct (framed_execute (length (heap s)) fuel self s) as (_ & Hf & _).
  { unfold above; lia. }
  unfold frame in Hf. rewrite firstn_all in Hf.
  rewrite <- Hl, <- Hf. symmetry. apply lookup_take_lt.
  by apply lookup_lt_Some in Hl.
Qed.

(** C10: [execute] leaves the raw parameters of its query as they were: the
    query still refers to the same raw dict, the dict has the same entries
    (the comma-joined strings went into a copy), and the identifier lists
    the entries refer to are unchanged.  This holds whether [execute]
    returns, raises or runs out of steps. *)
Theorem execute_keeps_raw fuel self s o d :
  heap s !! self = Some (OQuery o) →
  heap s !! q_raw o = Some (ODict d) →
  heap (execute fuel self s).2 !! self = Some (OQuery o) ∧
  heap (execute fuel self s).2 !! q_raw o = Some (ODict d) ∧
  ∀ k l xs, d !! k = Some (VRef l) → heap s !! l = Some (OList xs) →
            heap (execute fuel self s).2 !! l = Some (OList xs).
Proof.
  intros Hself Hraw. repeat split; [by apply execute_preserves..|].
  intros k l xs _ Hl. by apply execute_preserves.
Qed.

(** ** Dicts never lose a key *)

Lemma evolves_refl s : evolves s s.
Proof.
  split; [done|]. intros l [xs|d|q|r] Hl; try done. by exists d.
Qed.

Lemma evolves_trans s1 s2 s3 : evolves s1 s2 → evolves s2 s3 → evolves s1 s3.
Proof.
  intros [Hlen1 H1] [Hlen2 H2]. split; [lia|].
  intros l [xs|d|q|r] Hl; try done.
  - destruct (H1 _ _ Hl) as (d' & Hl' & Hd). destruct (H2 _ _ Hl') as (d'' & ? & ?).
    exists d''. split; [done|]. set_solver.
  - apply (H2 _ _ (H1 _ _ Hl)).
Qed.

Lemma evolves_grow s e rq : evolves s (grow s e rq).
Proof.
  split; [cbn; rewrite length_app; lia|].
  intros l [xs|d|q|r] Hl; try done.
  - exists d. split; [by apply lookup_grow_old | done].
  - by apply lookup_grow_old.
Qed.

Lemma evolves_store_list s l xs ys :
  heap s !! l = Some (OList xs) → evolves s (store l (OList ys) s).2.
Proof.
  intros Hl. split; [cbn; by rewrite length_insert|].
  intros l' o Hl'. cbn. destruct (decide (l = l')) as [->|Hne].
  - rewrite Hl in Hl'. by injection Hl' as <-.
  - rewrite list_lookup_insert_ne by done. rewrite Hl'.
    destruct o as [|d| |]; try done. by exists d.
Qed.

Lemma evolves_store_dict s l d d' :
  heap s !! l = Some (ODict d) → dom d ⊆ dom d' →
  evolves s (store l (ODict d') s).2.
Proof.
  intros Hl Hd. split; [cbn; by rewrite length_insert|].
  intros l' o Hl'. cbn. destruct (decide (l = l')) as [->|Hne].
  - rewrite Hl in Hl'. injection Hl' as <-. exists d'.
    split; [|done]. apply list_lookup_insert_eq. by apply lookup_lt_Some in Hl.
  - rewrite list_lookup_insert_ne by done. rewrite Hl'.
    destruct o as [|d0| |]; try done. by exists d0.
Qed.

Lemma evolves_store_report s l r r' :
  heap s !! l = Some (OReport r) → evolves s (store l (OReport r') s).2.
Proof.
  intros Hl. split; [cbn; by rewrite length_insert|].
  intros l' o Hl'. cbn. destruct (decide (l = l')) as [->|Hne].
  - rewrite Hl in Hl'. by injection Hl' as <-.
  - rewrite list_lookup_insert_ne by done. rewrite Hl'.
    destruct o as [|d| |]; try done. by exists d.
Qed.

Section Mono.

Local Notation "'mono'" := (sat (λ _, True) evolves).

Lemma mono_bind {A B} (m : M A) (k : A → M B) :
  mono m (λ _, True) → (∀ a, mono (k a) (λ _, True)) →
  mono (bind m k) (λ _, True).
Proof.
  intros Hm Hk. eapply sat_bind; [apply evolves_trans | apply Hm | auto].
Qed.

Lemma mono_reads {A} (m : M A) : (∀ s, (m s).2 = s) → mono m (λ _, True).
Proof. apply sat_reads, evolves_refl. Qed.

Lemma mono_intro {A} (m : M A) :
  (∀ s, evolves s (m s).2) → mono m (λ _, True).
Proof. intros Hm s _. split; [done|]. split; [apply Hm | done]. Qed.

Lemma mono_grows {A} (m : M A) :
  (∀ s, ∃ e rq, (m s).2 = grow s e rq) → mono m (λ _, True).
Proof.
  intros Hm. apply mono_intro. intros s. destruct (Hm s) as (e & rq & ->).
  apply evolves_grow.
Qed.

Lemma mono_ret {A} (a : A) : mono (ret a) (λ _, True).
Proof. by apply sat_ret; [apply evolves_refl|]. Qed.

Lemma mono_raise {A} x : mono (@raise A x) (λ _, True).
Proof. apply sat_raise, evolves_refl. Qed.

Lemma mono_lift {A} (o : outcome A) : mono (lift o) (λ _, True).
Proof. by apply sat_lift; [apply evolves_refl|]. Qed.

Lemma mono_alloc o : mono (alloc o) (λ _, True).
Proof.
  apply mono_grows. intros s. exists [o], []. unfold alloc, grow; cbn.
  by rewrite app_nil_r.
Qed.

(** A dict read, then stored back with at least the keys it had. *)
Lemma mono_dict_store l (f : gmap string value → gmap string value) :
  (∀ d, dom d ⊆ dom (f d)) →
  mono (let* d := load_dict l in store l (ODict (f d))) (λ _, True).
Proof.
  intros Hf. apply mono_intro. intros s. unfold bind, load_dict.
  destruct (heap s !! l) as [[|d| |]|] eqn:Hl; try apply evolves_refl.
  by eapply evolves_store_dict.
Qed.

Lemma mono_dict_setitem l k v : mono (dict_setitem l k v) (λ _, True).
Proof. apply (mono_dict_store l (insert k v)). intros d. set_solver. Qed.

Lemma mono_dict_update l upd : mono (dict_update l upd) (λ _, True).
Proof.
  apply (mono_dict_store l (union upd)). intros d. rewrite dom_union.
  set_solver.
Qed.

Lemma mono_list_store l (f : list string → list string) :
  mono (let* xs := load_list l in store l (OList (f xs))) (λ _, True).
Proof.
  apply mono_intro. intros s. unfold bind, load_list.
  destruct (heap s !! l) as [[xs| | |]|] eqn:Hl; try apply evolves_refl.
  by eapply evolves_store_list.
Qed.

Lemma mono_list_extend v ys : mono (list_extend v ys) (λ _, True).
Proof.
  destruct v; try apply mono_raise. apply (mono_list_store l (λ xs, xs ++ ys)).
Qed.

Lemma mono_list_insert0 v y : mono (list_insert0 v y) (λ _, True).
Proof.
  destruct v; try apply mono_raise. apply (mono_list_store l (cons y)).
Qed.

Lemma mono_dict_setdefault_list l k :
  mono (dict_setdefault_list l k) (λ _, True).
Proof.
  apply mono_bind; [apply mono_alloc|]. intros fresh.
  apply mono_intro. intros s. unfold bind, load_dict.
  destruct (heap s !! l) as [[|d| |]|] eqn:Hl; try apply evolves_refl.
  destruct (d !! k); [apply evolves_refl|]. cbn.
  eapply (evolves_store_dict s); [done|]. set_solver.
Qed.

Lemma mono__specify self metrics dimensions :
  mono (_specify self metrics dimensions) (λ _, True).
Proof.
  unfold _specify.
  apply mono_bind; [apply mono_reads, self_profile_reads|]. intros p.
  apply mono_bind; [apply mono_lift|]. intros ms.
  apply mono_bind; [apply mono_reads, self_profile_reads|]. intros p'.
  apply mono_bind; [apply mono_lift|]. intros ds.
  apply mono_bind; [apply mono_reads, self_raw_reads|]. intros raw.
  apply mono_bind; [apply mono_dict_setdefault_list|]. intros vm.
  apply mono_bind; [apply mono_list_extend|]. intros _.
  apply mono_bind; [apply mono_reads, self_raw_reads|]. intros raw'.
  apply mono_bind; [apply mono_dict_setdefault_list|]. intros vd.
  apply mono_bind; [apply mono_list_extend|]. intros _.
  apply mono_ret.
Qed.

Lemma mono_init p metrics dimensions meta :
  mono (Query.__init__ p metrics dimensions meta) (λ _, True).
Proof.
  apply mono_grows. intros s.
  destruct (init_grows p metrics dimensions meta s) as [e He]. by exists e, [].
Qed.

Lemma mono_clone self : mono (clone self) (λ _, True).
Proof.
  apply mono_grows. intros s. pose proof (clone_spec self s) as Hc.
  destruct (clone self s) as [[q'|x|] s1]; cbn.
  - destruct Hc as (o & md & d & _ & _ & _ & _ & ->). by eexists _, [].
  - destruct Hc as [e ->]. by exists e, [].
  - destruct Hc as [e ->]. by exists e, [].
Qed.

Lemma mono_immutable {A} (method : loc → M A) self :
  (∀ q, mono (method q) (λ _, True)) →
  mono (utils.immutable clone method self) (λ _, True).
Proof.
  intros Hm. apply mono_bind; [apply mono_clone|]. intros q.
  apply mono_bind; [apply Hm|]. intros _. apply mono_ret.
Qed.

Lemma mono_step_method maximum self :
  mono (step_method maximum self) (λ _, True).
Proof.
  apply mono_bind; [apply mono_reads, self_raw_reads|]. intros raw.
  apply mono_dict_setitem.
Qed.

Lemma mono_limit_method _range self :
  mono (limit_method _range self) (λ _, True).
Proof.
  unfold limit_method. apply mono_bind.
  { destruct _range as [|a [|b [|c r]]]; try apply mono_ret;
      (apply mono_bind; [apply mono_lift|]; intros ?; apply mono_ret). }
  intros sm.
  apply mono_bind; [apply mono_reads, self_meta_reads|]. intros meta.
  apply mono_bind; [apply mono_dict_setitem|]. intros _.
  apply mono_bind; [apply mono_reads, self_raw_reads|]. intros raw.
  apply mono_bind; [apply mono_dict_update|]. intros _.
  apply mono_ret.
Qed.

Lemma mono_next_method start self :
  mono (next_method start self) (λ _, True).
Proof.
  unfold next_method. apply mono_bind.
  { assert (mono (let* raw := self_raw self in
                  let* d := load_dict raw in
                  lift (add1 (default (VInt 1000) (d !! "max_results"))))
              (λ _, True)) as Hstep.
    { apply mono_bind; [apply mono_reads, self_raw_reads|]. intros raw.
      apply mono_bind; [apply mono_reads, load_dict_reads|]. intros d.
      apply mono_lift. }
    destruct start as [z|]; [destruct (z =? 0)%Z|]; try done.
    apply mono_ret. }
  intros st.
  apply mono_bind; [apply mono_reads, self_raw_reads|]. intros raw.
  apply mono_bind; [apply mono_dict_setitem|]. intros _.
  apply mono_ret.
Qed.

Lemma mono_range_method daterange start stop months days precision
    granularity self :
  mono (range_method daterange start stop months days precision granularity
          self) (λ _, True).
Proof.
  unfold range_method.
  apply mono_bind; [apply mono_lift|]. intros dates.
  apply mono_bind; [apply mono_reads, self_raw_reads|]. intros raw.
  apply mono_bind; [apply mono_dict_update|]. intros _.
  apply mono_bind; [destruct precision; [apply mono_lift | apply mono_ret]|].
  intros prec. destruct (negb _); [apply mono_raise|].
  apply mono_bind; [apply mono_reads, self_raw_reads|]. intros raw'.
  apply mono_bind; [apply mono_dict_update|]. intros _.
  apply mono_bind; [|intros _; apply mono_ret].
  destruct (truthy granularity); [|apply mono_ret].
  apply mono_bind.
  { destruct granularity as [[i|g]|]; try apply mono_ret.
    destruct (bool_decide _); [|apply mono_raise].
    destruct (seq_index _ _); [apply mono_ret | apply mono_raise]. }
  intros g.
  apply mono_bind; [apply mono_lift|]. intros dimension.
  apply mono_bind; [apply mono_reads, self_raw_reads|]. intros raw''.
  apply mono_bind; [apply mono_reads, load_dict_reads|]. intros d.
  apply mono_bind; [apply mono_reads, dict_getitem_reads|]. intros dims.
  apply mono_list_insert0.
Qed.

Lemma mono_run_op daterange op q : mono (run_op daterange op q) (λ _, True).
Proof.
  destruct op; cbn [run_op].
  - apply mono_immutable. intros ?. apply mono__specify.
  - apply mono_immutable. intros ?. apply mono_range_method.
  - apply mono_immutable. intros ?. apply mono_step_method.
  - apply mono_immutable. intros ?. apply mono_limit_method.
  - apply mono_immutable. intros ?. apply mono_next_method.
  - apply mono_clone.
  - apply mono_immutable. intros ?. apply mono_ret.
  - apply mono_immutable. intros ?. apply mono_ret.
Qed.

End Mono.

(** ** [rawParams] always has [ids], [metrics] and [dimensions] *)

Lemma has_keys_evolves s s' q : has_keys s q → evolves s s' → has_keys s' q.
Proof.
  intros (o & d & Hq & Hraw & Hi & Hm & Hd) [_ Hev].
  pose proof (Hev _ _ Hq) as Hq'. cbn in Hq'.
  destruct (Hev _ _ Hraw) as (d' & Hraw' & Hdom).
  exists o, d'. repeat split; [done..| | |];
    apply elem_of_dom; apply Hdom; by apply elem_of_dom.
Qed.

Lemma init_has_keys p metrics dimensions meta s q s' :
  Query.__init__ p metrics dimensions meta s = (Ok q, s') → has_keys s' q.
Proof.
  destruct (_serialize_columns p metrics) as [ms|x|] eqn:Hm;
    [destruct (_serialize_columns p dimensions) as [ds|x|] eqn:Hd|..].
  - rewrite (init_ok _ _ _ _ _ _ _ Hm Hd). intros [= <- <-].
    eexists _, _. unfold init_objs.
    split; [by rewrite lookup_grow_fresh|]. cbn [q_raw].
    split; [by rewrite lookup_grow_fresh|].
    repeat split; eexists; by simplify_map_eq.
  - rewrite run_start. unfold Query.__init__, _specify. unfold_py. run.
    rewrite Hm. run. rewrite Hd. by run.
  - rewrite run_start. unfold Query.__init__, _specify. unfold_py. run.
    rewrite Hm. run. rewrite Hd. by run.
  - rewrite run_start. unfold Query.__init__, _specify. unfold_py. run.
    rewrite Hm. by run.
  - rewrite run_start. unfold Query.__init__, _specify. unfold_py. run.
    rewrite Hm. by run.
Qed.

Lemma clone_has_keys self s q' s' :
  has_keys s self → clone self s = (Ok q', s') → has_keys s' q'.
Proof.
  intros (o & d & Hq & Hraw & Hi & Hm & Hd) Hc.
  pose proof (clone_spec self s) as Hs. rewrite Hc in Hs.
  destruct Hs as (o' & md & d' & Hq' & _ & Hraw' & -> & ->).
  assert (o' = o) as -> by congruence.
  erewrite lookup_grow_old in Hraw' by done. assert (d' = d) as -> by congruence.
  eexists _, d. unfold clone_objs.
  split; [by rewrite lookup_grow_fresh|]. cbn [q_raw].
  split; [by rewrite lookup_grow_fresh|]. done.
Qed.

Lemma immutable_has_keys {A} (method : loc → M A) self s q' s' :
  (∀ q, sat (λ _, True) evolves (method q) (λ _, True)) →
  has_keys s self →
  utils.immutable clone method self s = (Ok q', s') → has_keys s' q'.
Proof.
  intros Hmono Hk. unfold utils.immutable, bind at 1.
  destruct (clone self s) as [[q1|x|] s1] eqn:Hc; [|done..].
  pose proof (clone_has_keys _ _ _ _ Hk Hc) as Hk1.
  destruct (Hmono q1 s1 Logic.I) as (_ & Hev & _).
  unfold bind. destruct (method q1 s1) as [[a|x|] s2]; [|done..].
  cbn in *. intros [= <- <-]. by eapply has_keys_evolves.
Qed.

Lemma run_op_has_keys daterange op q s q' s' :
  has_keys s q → run_op daterange op q s = (Ok q', s') → has_keys s' q'.
Proof.
  intros Hk. destruct op; cbn [run_op].
  - apply immutable_has_keys; [|done]. intros ?. apply mono__specify.
  - apply immutable_has_keys; [|done]. intros ?. apply mono_range_method.
  - apply immutable_has_keys; [|done]. intros ?. apply mono_step_method.
  - apply immutable_has_keys; [|done]. intros ?. apply mono_limit_method.
  - apply immutable_has_keys; [|done]. intros ?. apply mono_next_method.
  - by apply clone_has_keys.
  - apply immutable_has_keys; [|done]. intros ?. apply mono_ret.
  - apply immutable_has_keys; [|done]. intros ?. apply mono_ret.
Qed.

(** C9: a query that was constructed and then taken through any sequence
    of chain operations ([specify], [range], [step], [limit], [next],
    [clone], [sort], [filter]) has the keys [ids], [metrics] and
    [dimensions] in its raw parameters, whatever else was constructed or
    chained in the same store in the meantime. *)
Theorem reachable_has_keys daterange s q :
  reachable daterange s q → has_keys s q.
Proof.
  induction 1 as [s p ms ds meta q s' Hinit
                 |s q op q' s' _ IH Hop
                 |s q op q0 r s' _ IH Hop
                 |s q p ms ds meta r s' _ IH Hinit].
  - by eapply init_has_keys.
  - by eapply run_op_has_keys.
  - eapply has_keys_evolves; [done|].
    destruct (mono_run_op daterange op q0 s Logic.I) as (_ & Hev & _).
    by rewrite Hop in Hev.
  - eapply has_keys_evolves; [done|].
    destruct (mono_init p ms ds meta s Logic.I) as (_ & Hev & _).
    by rewrite Hinit in Hev.
Qed.

Lemma run_result {A} (m : M A) s a : (m s).1 = Ok a → m s = (Ok a, (m s).2).
Proof. destruct (m s); cbn; by intros ->. Qed.

Lemma reachable_has_keys_witness :
  has_keys (limit [10%Z] 2 demo_init.2).2 7.
Proof.
  apply (reachable_has_keys fixed_dates).
  apply (reach_op fixed_dates demo_init.2 2 (OpLimit [10%Z])).
  - apply (reach_init fixed_dates empty_state demo_profile
             (One (ByName "sessions")) (Many [ByName "date"]) ∅).
    apply run_result. vm_compute. reflexivity.
  - apply run_result. vm_compute. reflexivity.
Defined.

Lemma execute_keeps_raw_witness :
  let s := demo_init.2 in
  heap (execute 3 2 s).2 !! 2 = heap s !! 2 ∧
  heap (execute 3 2 s).2 !! 0 = heap s !! 0 ∧
  heap (execute 3 2 s).2 !! 3 = Some (OList ["ga:sessions"]).
Proof.
  intros s.
  destruct (execute_keeps_raw 3 2 s
    {| q_raw := 0; q_meta := 1; q_profile := demo_profile; q_report := None |}
    {[ "dimensions" := VRef 4; "metrics" := VRef 3; "ids" := VStr "ga:12345" ]})
    as (H1 & H2 & H3).
  - reflexivity.
  - reflexivity.
  - split; [exact H1|]. split; [exact H2|].
    apply (H3 "metrics"); reflexivity.
Defined.

(** ** The chain operations and their receiver *)

(** [clone], [step], [limit], [next], [sort] and [filter] leave every object
    of the store they start from as it was. *)
Lemma safe_ops_preserve daterange op q s l o :
  match op with OpSpecify _ _ | OpRange _ _ _ _ _ _ => False | _ => True end →
  heap s !! l = Some o → heap (run_op daterange op q s).2 !! l = Some o.
Proof.
  intros Hop Hl.
  assert (∃ e, (run_op daterange op q s).2 = grow s e []) as [e ->].
  { destruct op; try done; cbn [run_op].
    - apply step_grows.
    - apply limit_grows.
    - apply next_grows.
    - pose proof (clone_spec q s) as Hc.
      destruct (clone q s) as [[q'|x|] s1]; cbn.
      + destruct Hc as (? & ? & ? & _ & _ & _ & _ & ->). by eexists.
      + done.
      + done.
    - apply sort_grows.
    - apply sort_grows. }
  by apply lookup_grow_old.
Qed.

(** C1, at [q = Query(profile)] followed by [q.specify(metrics='sessions')]:
    the call returns a new query (address 7, not 2), but the metric list
    of [q] itself, empty before the call, holds [ga:sessions] after it, so
    the structure of [q] is not what it was.  [clone] copies the raw dict
    with [copy], which shares the two identifier lists, and [_specify]
    extends them in place. *)
Theorem specify_mutates_receiver :
  bare_init.1 = Ok 2 ∧
  raw_of bare_init.2 2 "metrics" = Some (DList []) ∧
  (specify (One (ByName "sessions")) (Many []) 2 bare_init.2).1 = Ok 7 ∧
  raw_of (specify (One (ByName "sessions")) (Many []) 2 bare_init.2).2 2
    "metrics" = Some (DList ["ga:sessions"]) ∧
  snapshot (specify (One (ByName "sessions")) (Many []) 2 bare_init.2).2 2
    ≠ snapshot bare_init.2 2.
Proof.
  repeat split; try (vm_compute; reflexivity).
  intros Heq.
  assert (raw_of (specify (One (ByName "sessions")) (Many []) 2 bare_init.2).2
            2 "metrics" = raw_of bare_init.2 2 "metrics") as Hraw.
  { unfold raw_of. by rewrite Heq. }
  vm_compute in Hraw. discriminate Hraw.
Qed.

(** The same sharing in [range]: with a granularity, the time dimension is
    inserted into the dimension list of the receiver as well. *)
Lemma range_mutates_receiver :
  raw_of bare_init.2 2 "dimensions" = Some (DList []) ∧
  raw_of (range fixed_dates "2023-01-01" None 0 0 (AInt 1)
            (Some (AStr "day")) 2 bare_init.2).2 2 "dimensions"
    = Some (DList ["ga:date"]).
Proof. split; vm_compute; reflexivity. Qed.

(** C4, at [q.range('2023-01-01', precision=5)] and
    [q.range('2023-01-01', precision='BOGUS')]: the unknown token meets the
    membership test and raises the [ValueError] that lists the three levels;
    the index 5 is used to index [PRECISION_LEVELS] before that test and
    raises an [IndexError] that lists nothing. *)
Theorem range_precision_errors :
  (range fixed_dates "2023-01-01" None 0 0 (AInt 5) None 2 bare_init.2).1
    = Raise (IndexError "tuple index out of range") ∧
  (range fixed_dates "2023-01-01" None 0 0 (AStr "BOGUS") None 2
     bare_init.2).1
    = Raise (ValueError
        "Granularity should be one of: FASTER, DEFAULT, HIGH_PRECISION").
Proof. split; vm_compute; reflexivity. Qed.

(** C7, at [q.range('2023-01-01', granularity='decade')]: the branch that
    should build the message reads the name [options], which the module
    never binds, so the call ends in a [NameError] and no message listing
    the granularity levels is produced. *)
Theorem range_unknown_granularity :
  (range fixed_dates "2023-01-01" None 0 0 (AInt 1) (Some (AStr "decade")) 2
     bare_init.2).1
    = Raise (NameError "options").
Proof. vm_compute; reflexivity. Qed.

(** C3, at two queries.  With [limit(1000)] over 1001 rows the first page
    brings 1000 rows, which meets the limit, and a [nextLink]; the first
    test compares the limit with the constant 1000, not with the rows, and
    a second page is asked for (index 1001), ending with 1001 rows.  With
    [limit(10).step(2)] over 5 rows the first page brings 2 rows, below the
    limit, and a [nextLink]; the same test says enough, and no second page
    is asked for.  (Both runs return within the budget of 5 and so, by
    [execute_more_fuel], within any larger one.) *)
Theorem first_test_ignores_rows :
  (limit_1000_run.1 = Ok 12 ∧
   start_indices limit_1000_run.2 = [Some (VInt 1); Some (VInt 1001)] ∧
   length <$> report_rows limit_1000_run.2 12 = Some 1001) ∧
  (limit_10_step_2_run.1 = Ok 18 ∧
   start_indices limit_10_step_2_run.2 = [Some (VInt 1)] ∧
   length <$> report_rows limit_10_step_2_run.2 18 = Some 2 ∧
   report_complete limit_10_step_2_run.2 18 = Some false).
Proof. repeat split; vm_compute; reflexivity. Qed.

(** C5, at [len(q)] and [iter(q)] on a query that was not executed: the
    call runs [execute] (one request), which returns the report without
    assigning it to [q.report], and the read of [self.report] that follows
    raises [AttributeError]; the query still has no [report] attribute, and
    a second call sends a second request. *)
Theorem len_does_not_cache :
  (__len__ 5 2 demo_init.2).1 = Raise (AttributeError "report") ∧
  length (log (__len__ 5 2 demo_init.2).2) = 1 ∧
  (has_report 2 (__len__ 5 2 demo_init.2).2).1 = Ok false ∧
  (__len__ 5 2 (__len__ 5 2 demo_init.2).2).1
    = Raise (AttributeError "report") ∧
  length (log (__len__ 5 2 (__len__ 5 2 demo_init.2).2).2) = 2 ∧
  (__iter__ 5 2 demo_init.2).1 = Raise (AttributeError "report").
Proof. repeat split; vm_compute; reflexivity. Qed.

(** ** Column access on a report *)

Lemma seq_index_None x t : x ∉ t → seq_index x t = None.
Proof.
  induction t as [|y t IH]; [done|]. intros Hx. cbn.
  destruct (String.eqb_spec x y) as [->|Hne]; [set_solver|].
  rewrite IH; [done|set_solver].
Qed.

(** C8: [report[key]] for a [key] that is the identifier of none of the
    report's headers raises the [ValueError] whose message is the key
    followed by " not in column headers", and changes nothing. *)
Theorem getitem_missing_column self s r key :
  heap s !! self = Some (OReport r) →
  key ∉ col_id <$> r_headers r →
  Report.__getitem__ self key s =
    (Raise (ValueError (key +:+ " not in column headers")), s).
Proof.
  intros Hself Hkey. unfold Report.__getitem__. rewrite run_load_report, Hself.
  unfold addressable.index. by rewrite seq_index_None.
Qed.

Lemma getitem_missing_column_witness :
  Report.__getitem__ 6 "ga:bogus" (execute 3 2 demo_init.2).2 =
    (Raise (ValueError "ga:bogus not in column headers"),
     (execute 3 2 demo_init.2).2).
Proof.
  eapply (getitem_missing_column 6 _ _ "ga:bogus").
  - reflexivity.
  - vm_compute. intros H. repeat (inversion H as [|? ? ? H']; clear H; rename H' into H).
Defined.

(** ** Lazy execution through [__len__] *)

(** A query without a [report] attribute never gets a length: [__len__]
    runs [execute], which leaves the query as it was, and then fails to
    read [self.report]. *)
Lemma len_never_returns fuel self s o :
  heap s !! self = Some (OQuery o) → q_report o = None →
  ∀ k, (__len__ fuel self s).1 ≠ Ok k.
Proof.
  intros Hself Hrep k. unfold __len__, has_report.
  rewrite bind_assoc, run_load_query, Hself, run_ret, Hrep. cbn [negb bool_decide].
  replace (bool_decide (is_Some (@None loc))) with false by done. cbn [negb].
  rewrite bind_assoc.
  pose proof (execute_preserves fuel self s self _ Hself) as Hkeep.
  unfold bind at 1. destruct (execute fuel self s) as [[r|x|] s1]; cbn in *; try done.
  unfold self_report. by rewrite bind_assoc, run_load_query, Hkeep, Hrep.
Qed.

(** ** More fuel does not change a result *)

Lemma bind_same_k {A B} (m : M A) (k k' : A → M B) s r s' :
  (∀ a s1, k a s1 = (r, s') → k' a s1 = (r, s')) →
  bind m k s = (r, s') → bind m k' s = (r, s').
Proof. unfold bind. destruct (m s) as [[a|x|] s1]; auto. Qed.

Lemma bind_settled {A B} (m m' : M A) (k k' : A → M B) s r s' :
  r ≠ Timeout →
  (∀ ro s1, m s = (ro, s1) → ro ≠ Timeout → m' s = (ro, s1)) →
  (∀ a s1, k a s1 = (r, s') → k' a s1 = (r, s')) →
  bind m k s = (r, s') → bind m' k' s = (r, s').
Proof.
  intros Hr Hm Hk. unfold bind.
  destruct (m s) as [[a|x|] s1] eqn:Hms.
  - rewrite (Hm _ _ eq_refl) by done. auto.
  - rewrite (Hm _ _ eq_refl) by done. auto.
  - intros [= <- <-]. done.
Qed.

Section MoreFuel.
Variables execute1 execute2 : loc → M loc.
Hypothesis execute12 :
  ∀ q s r s', execute1 q s = (r, s') → r ≠ Timeout → execute2 q s = (r, s').
Variables self report : loc.

Lemma while_more_fuel n : ∀ n' is_enough s r s',
  n ≤ n' →
  while execute1 self report n is_enough s = (r, s') → r ≠ Timeout →
  while execute2 self report n' is_enough s = (r, s').
Proof.
  induction n as [|n IH]; intros n' is_enough s r s' Hn Hw Hr.
  - revert Hw. destruct n'; cbn [while]; apply bind_same_k; intros ro s1;
      destruct (negb _); try done.
    intros [= <- <-]. done.
  - destruct n' as [|n']; [lia|]. revert Hw. cbn [while].
    apply bind_same_k; intros ro s1. destruct (negb _); [|done].
    apply bind_same_k; intros next_query s2.
    apply bind_settled; [done|apply execute12|]. intros next_report s3.
    apply bind_same_k; intros nr s4.
    apply bind_same_k; intros [] s5.
    apply bind_same_k; intros r' s6.
    apply bind_same_k; intros lim s7.
    intros Hw. apply IH; [lia|done..].
Qed.

End MoreFuel.

Lemma execute_more_fuel fuel : ∀ fuel' self s r s',
  fuel ≤ fuel' →
  execute fuel self s = (r, s') → r ≠ Timeout →
  execute fuel' self s = (r, s').
Proof.
  induction fuel as [|fuel IH]; intros fuel' self s r s' Hle Hex Hr.
  - cbn in Hex. by injection Hex as <- <-.
  - destruct fuel' as [|fuel']; [lia|]. revert Hex. cbn [execute].
    do 9 (apply bind_same_k; intros ? ?).
    intros Hw.
    apply (while_more_fuel (execute fuel) (execute fuel')) with (n := fuel);
      [|lia|done..].
    intros q sq rq sq' Hq Hrq. apply (IH fuel'); [lia|done..].
Qed.

(** ** The two-page scenario *)

Lemma two_pages_result catalog :
  (two_pages_run catalog 2).1 = Ok 6.
Proof. vm_compute. reflexivity. Qed.

Lemma two_pages_report catalog :
  heap (two_pages_run catalog 2).2 !! 6 =
  Some (OReport {|
    r_raw := {| columnHeaders := ["ga:date"; "ga:sessions"];
                page_rows := [["20230101"; "10"]];
                nextLink := Some "..." |};
    r_queries := [2; 9];
    r_headers :=
      addressable.filter
        (λ col, bool_decide (col_id col ∈ ["ga:date"; "ga:sessions"]))
        catalog;
    r_rows := [["20230101"; "10"]; ["20230102"; "20"]];
    r_is_complete := true |}).
Proof. reflexivity. Qed.

Lemma surjective_pairing_result {A} (p : outcome A * state) a :
  p.1 = Ok a → p = (Ok a, p.2).
Proof. destruct p; cbn; by intros ->. Qed.

(** Whatever the fuel, a run that returns is the run with fuel 2. *)
Lemma two_pages_any_fuel catalog fuel report s :
  two_pages_run catalog fuel = (Ok report, s) →
  report = 6 ∧ s = (two_pages_run catalog 2).2.
Proof.
  intros Hrun.
  assert (two_pages_run catalog 2 = (Ok report, s)) as H2.
  { pose proof (two_pages_result catalog) as Hres. revert Hrun Hres.
    unfold two_pages_run, bind.
    destruct (Query.__init__ _ _ _ _ _) as [[q|x|] s1]; try done.
    intros Hf H2. destruct (decide (fuel ≤ 2)).
    - by apply (execute_more_fuel fuel 2).
    - destruct (execute 2 q s1) as [r2 s2] eqn:He2. cbn in H2. subst r2.
      apply (execute_more_fuel 2 fuel) in He2; [|lia|done]. congruence. }
  pose proof (two_pages_result catalog) as Hres. rewrite H2 in Hres |- *.
  cbn [fst snd] in *. clear H2 Hrun. injection Hres as ->.
  split; reflexivity.
Qed.

(** Whatever the catalog, and for every budget of at least 2, the two
    pages end in a complete report with the two rows. *)
Lemma two_pages_rows catalog fuel :
  two_pages_run catalog (2 + fuel) = (Ok 6, (two_pages_run catalog 2).2) ∧
  report_rows (two_pages_run catalog 2).2 6
    = Some [["20230101"; "10"]; ["20230102"; "20"]] ∧
  report_complete (two_pages_run catalog 2).2 6 = Some true.
Proof.
  split.
  { pose proof (surjective_pairing_result _ _ (two_pages_result catalog))
      as H2. revert H2. generalize (two_pages_run catalog 2).2 as s2.
    unfold two_pages_run, bind.
    destruct (Query.__init__ _ _ _ _ _) as [[q|x|] s1]; try done.
    intros s2 H2. apply (execute_more_fuel 2 (2 + fuel)); [lia|exact H2|done]. }
  unfold report_rows, report_complete. by rewrite two_pages_report.
Qed.

(** The outcome the scenario is said to have is not reached when the
    catalog lists [ga:sessions] before [ga:date], whatever the budget. *)
Lemma pagination_outcome_fails :
  ¬ pagination_outcome [ga_sessions; ga_date].
Proof.
  intros (fuel & report & s & Hrun & _ & _ & Hcol).
  apply two_pages_any_fuel in Hrun as [-> ->].
  vm_compute in Hcol. discriminate Hcol.
Qed.

(** C6, at an account whose catalog lists [ga:sessions] before [ga:date]:
    the two pages end in a complete report with the two rows, but
    [report['ga:sessions']] returns the dates and [report['ga:date']] the
    session counts.  The headers of a report are the catalog filtered by
    the response's column names, so they come in the catalog's order,
    while each row keeps the order of the response; [__getitem__] takes
    the position of the key among the headers and reads the rows at that
    position.  With the catalog in the order of the response the same
    pages give 10, 20. *)
Theorem pagination_reads_by_catalog_position :
  (∃ report s,
     (∀ fuel,
        two_pages_run [ga_sessions; ga_date] (2 + fuel) = (Ok report, s)) ∧
     report_rows s report
       = Some [["20230101"; "10"]; ["20230102"; "20"]] ∧
     report_complete s report = Some true ∧
     Report.__getitem__ report "ga:sessions" s
       = (Ok ["20230101"; "20230102"], s) ∧
     Report.__getitem__ report "ga:date" s = (Ok ["10"; "20"], s)) ∧
  (∃ report s,
     (∀ fuel,
        two_pages_run [ga_date; ga_sessions] (2 + fuel) = (Ok report, s)) ∧
     Report.__getitem__ report "ga:sessions" s = (Ok ["10"; "20"], s)).
Proof.
  split.
  - exists 6, (two_pages_run [ga_sessions; ga_date] 2).2.
    split; [intros fuel; apply two_pages_rows|].
    split; [apply (two_pages_rows _ 0)|].
    split; [apply (two_pages_rows _ 0)|].
    unfold Report.__getitem__.
    rewrite !run_load_report, two_pages_report. split; reflexivity.
  - exists 6, (two_pages_run [ga_date; ga_sessions] 2).2.
    split; [intros fuel; apply two_pages_rows|].
    unfold Report.__getitem__.
    rewrite run_load_report, two_pages_report. reflexivity.
Qed.

(** ** [clone] and [next] on a well-formed query *)

Lemma clone_ok self s o md d :
  heap s !! self = Some (OQuery o) →
  heap s !! q_meta o = Some (ODict md) →
  heap s !! q_raw o = Some (ODict d) →
  clone self s =
    (Ok (length (heap s) + 2), grow s (clone_objs (length (heap s)) o md d) []).
Proof.
  intros Hself Hmeta Hraw.
  rewrite <- bind_ret_r. unfold clone, self_profile, self_meta.
  run. erewrite bind_eq by (by apply init_ok).
  unfold self_raw, copy, init_objs. run. done.
Qed.

Lemma next_ok self s o md d z :
  heap s !! self = Some (OQuery o) →
  heap s !! q_meta o = Some (ODict md) →
  heap s !! q_raw o = Some (ODict d) →
  d !! "max_results" = Some (VInt z) →
  next None self s =
    (Ok (length (heap s) + 2),
     grow s (clone_objs (length (heap s)) o md
               (<["start_index" := VInt (z + 1)]> d)) []).
Proof.
  intros Hself Hmeta Hraw Hmax. unfold next, utils.immutable.
  rewrite (bind_eq _ _ _ _ _ (clone_ok _ _ _ _ _ Hself Hmeta Hraw)).
  unfold clone_objs, next_method. unfold_py. rewrite <- bind_ret_r. run.
  simpl (add1 _). cbv beta iota. run. done.
Qed.

(** ** A third page is never reached *)

Lemma stuck_grow s e rq q : stuck s q → stuck (grow s e rq) q.
Proof.
  intros (o & d & md & lm & ld & ms & ds & Hq & Hp & Hraw & Hstart
          & Hmax & Hm & Hlm & Hd & Hld & Hmeta & Hlim).
  exists o, d, md, lm, ld, ms, ds.
  repeat split; try done; by apply lookup_grow_old.
Qed.

(** The follow-up of a stuck query starts at row 2 again. *)
Lemma stuck_next s q :
  stuck s q → ∃ q' s', next None q s = (Ok q', s') ∧ stuck s' q'.
Proof.
  intros (o & d & md & lm & ld & ms & ds & Hq & Hp & Hraw & Hstart
          & Hmax & Hm & Hlm & Hd & Hld & Hmeta & Hlim).
  eexists _, _. split; [by eapply next_ok|].
  eexists _, (<["start_index" := VInt (1 + 1)]> d), (md ∪ ∅), lm, ld, ms, ds.
  unfold clone_objs.
  split; [by rewrite lookup_grow_fresh|]. cbn [q_raw q_meta q_profile].
  split; [done|].
  split; [by rewrite lookup_grow_fresh|].
  split; [right; by rewrite lookup_insert_eq|].
  split; [by rewrite lookup_insert_ne|].
  split; [by rewrite lookup_insert_ne|].
  split; [by apply lookup_grow_old|].
  split; [by rewrite lookup_insert_ne|].
  split; [by apply lookup_grow_old|].
  split; [by rewrite lookup_grow_fresh|].
  apply lookup_union_None. by rewrite lookup_empty.
Qed.

Lemma bind_timeout {A B} (m : M A) (k : A → M B) s :
  (m s).1 = Timeout → (bind m k s).1 = Timeout.
Proof. unfold bind. by destruct (m s) as [[a|x|] s1]. Qed.

Lemma stuck_timeout fuel : ∀ s q, stuck s q → (execute fuel q s).1 = Timeout.
Proof.
  induction fuel as [|fuel IH]; intros s q Hstuck; [done|].
  pose proof Hstuck as
    (o & d & md & lm & ld & ms & ds & Hq & Hp & Hraw & Hstart
     & Hmax & Hm & Hlm & Hd & Hld & Hmeta & Hlim).
  rewrite run_start. cbn [execute]. unfold join_into, self_limit. unfold_py. run.
  unfold str_join. run. rewrite Hp. cbn [service paged_profile].
  unfold paged, int_param, get_limit.
  destruct Hstart as [Hstart|Hstart]; run; cbv beta iota;
    match goal with |- context [Report.__init__ ?pg] =>
      let pg' := eval vm_compute in pg in change pg with pg'
    end;
    unfold Report.__init__, Report.append; run;
    change (negb (bool_decide (is_Some (Some "next")))) with false;
    change (inf_ltb None 1000) with false;
    (destruct fuel as [|fuel']; cbn [while]; run; [done|]);
    cbn [negb orb]; rewrite !bind_assoc;
    match goal with |- context [grow s ?e ?rq] =>
      destruct (stuck_next _ _ (stuck_grow s e rq q Hstuck))
        as (q' & s' & Hnext & Hstuck')
    end;
    rewrite (bind_eq _ _ _ _ _ Hnext); cbv beta iota; rewrite ?bind_assoc;
    apply bind_timeout, IH, Hstuck'.
Qed.

(** C2, at [q = Query(profile, 'sessions', ['date']).step(1)] over a table
    of three rows: the
    transport serves finitely many rows, one per page, yet [execute] never
    returns.  [next] computes the start of the follow-up as
    [max_results + 1] from the query it is called on, whatever that
    query's own start, so the follow-up of the follow-up asks for row 2
    again, and so on: with a budget of 6 the requests are for rows
    1, 2, 2, 2, 2, 2. *)
Theorem third_page_never_reached :
  (∀ fuel, (three_pages_run fuel).1 = Timeout) ∧
  start_indices (three_pages_run 6).2 =
    [None; Some (VInt 2); Some (VInt 2); Some (VInt 2); Some (VInt 2);
     Some (VInt 2)].
Proof.
  split; [|vm_compute; reflexivity].
  intros fuel. unfold three_pages_run.
  erewrite bind_eq by (apply run_result with (a := 2); reflexivity).
  cbv beta iota.
  erewrite bind_eq by (apply run_result with (a := 7); reflexivity).
  cbv beta iota. apply stuck_timeout.
  eexists _, _, _, 3, 4, ["ga:sessions"], ["ga:date"].
  split; [reflexivity|]. split; [reflexivity|]. split; [reflexivity|].
  split; [left; reflexivity|]. repeat split; reflexivity.
Qed.

(** * Further properties *)

(** ** [Report] *)

Lemma seq_index_Some x t i :
  t !! i = Some x → (∀ j, j < i → t !! j ≠ Some x) → seq_index x t = Some i.
Proof.
  revert i. induction t as [|y t IH]; intros i Hi Hfirst; [done|]. cbn.
  destruct i as [|i].
  - cbn in Hi. injection Hi as ->. by rewrite String.eqb_refl.
  - destruct (String.eqb_spec x y) as [->|Hne].
    + by destruct (Hfirst 0 ltac:(lia)).
    + rewrite (IH i); [done|done|]. intros j Hj. apply (Hfirst (S j)). lia.
Qed.

Lemma seq_getitem_nat {A} what (t : list A) i x :
  t !! i = Some x → seq_getitem what t (Z.of_nat i) = Ok x.
Proof.
  intros Hi. pose proof (lookup_lt_Some _ _ _ Hi) as Hlt. unfold seq_getitem.
  destruct (Z.ltb_spec (Z.of_nat i) 0); [lia|].
  destruct (Z.ltb_spec (Z.of_nat i) 0); [lia|].
  destruct (Z.leb_spec (Z.of_nat (length t)) (Z.of_nat i)); [lia|].
  cbn. by rewrite Nat2Z.id, Hi.
Qed.

Lemma seq_getitem_short {A} what (t : list A) i :
  length t ≤ i →
  seq_getitem what t (Z.of_nat i)
    = Raise (IndexError (what +:+ " index out of range")).
Proof.
  intros Hle. unfold seq_getitem.
  destruct (Z.ltb_spec (Z.of_nat i) 0); [lia|].
  destruct (Z.ltb_spec (Z.of_nat i) 0); [lia|].
  destruct (Z.leb_spec (Z.of_nat (length t)) (Z.of_nat i)); [done|lia].
Qed.

Lemma column_of_ok i rows :
  (∀ row, row ∈ rows → i < length row) →
  ∃ col, Report.column_of i rows = Ok col ∧ length col = length rows ∧
         ∀ j row, rows !! j = Some row → col !! j = row !! i.
Proof.
  induction rows as [|row rows IH]; intros Hwide.
  - exists []. by repeat split.
  - destruct IH as (col & Hcol & Hlen & Hnth).
    { intros r Hr. apply Hwide. by right. }
    destruct (lookup_lt_is_Some_2 row i) as [x Hx]; [apply Hwide; by left|].
    exists (x :: col). cbn. rewrite (seq_getitem_nat _ _ _ _ Hx), Hcol.
    repeat split; [by rewrite Hlen|].
    intros [|j] r; cbn; [by intros [= <-]|apply Hnth].
Qed.

Lemma column_of_short i rows row :
  row ∈ rows → length row ≤ i →
  Report.column_of i rows = Raise (IndexError "list index out of range").
Proof.
  intros Hin Hshort. induction rows as [|r rows IH]; [by apply elem_of_nil in Hin|].
  cbn. destruct (decide (length r ≤ i)) as [Hr|Hr].
  - by rewrite (seq_getitem_short _ _ _ Hr).
  - destruct (lookup_lt_is_Some_2 r i) as [x Hx]; [lia|].
    rewrite (seq_getitem_nat _ _ _ _ Hx), IH; [done|].
    apply elem_of_cons in Hin as [->|Hin]; [lia|done].
Qed.

(** X1: when [key] is the identifier of the header at position [i], and of
    no header before it, and every row has more than [i] cells,
    [report[key]] returns the cells at position [i], one for each row in
    order, and leaves the state as it was. *)
Theorem getitem_reads_column self s r key i :
  heap s !! self = Some (OReport r) →
  (col_id <$> r_headers r) !! i = Some key →
  (∀ j, j < i → (col_id <$> r_headers r) !! j ≠ Some key) →
  (∀ row, row ∈ r_rows r → i < length row) →
  ∃ col, Report.__getitem__ self key s = (Ok col, s) ∧
         length col = length (r_rows r) ∧
         ∀ j row, r_rows r !! j = Some row → col !! j = row !! i.
Proof.
  intros Hself Hi Hfirst Hwide.
  destruct (column_of_ok i (r_rows r) Hwide) as (col & Hcol & Hlen & Hnth).
  exists col. split; [|done].
  unfold Report.__getitem__. rewrite run_load_report, Hself.
  unfold addressable.index. rewrite (seq_index_Some _ _ i); [|done..].
  by rewrite Hcol.
Qed.

(** X2: with the same header position [i], one row with no more than [i]
    cells makes [report[key]] raise the [IndexError] of the list access;
    the handler for [ValueError] does not catch it. *)
Theorem getitem_short_row self s r key i row :
  heap s !! self = Some (OReport r) →
  (col_id <$> r_headers r) !! i = Some key →
  (∀ j, j < i → (col_id <$> r_headers r) !! j ≠ Some key) →
  row ∈ r_rows r → length row ≤ i →
  Report.__getitem__ self key s =
    (Raise (IndexError "list index out of range"), s).
Proof.
  intros Hself Hi Hfirst Hin Hshort.
  unfold Report.__getitem__. rewrite run_load_report, Hself.
  unfold addressable.index. rewrite (seq_index_Some _ _ i); [|done..].
  by rewrite (column_of_short i _ row).
Qed.

Lemma filter_ids (f : Column → bool) cols key :
  key ∉ col_id <$> cols → key ∉ col_id <$> List.filter f cols.
Proof.
  induction cols as [|c cols IH]; [done|]. cbn. intros Hkey.
  apply not_elem_of_cons in Hkey as [Hc Hcols].
  destruct (f c); [|by apply IH]. cbn. apply not_elem_of_cons. auto.
Qed.

(** X3: a report built from a page has the rows of the page, is complete
    exactly when the page has no [nextLink], lists the query as its only
    contributor, and [len(report)] is the number of rows; the objects
    before it are untouched. *)
Theorem report_of_page raw query s o :
  heap s !! query = Some (OQuery o) →
  ∃ r s', Report.__init__ raw query s = (Ok r, s') ∧
          report_rows s' r = Some (page_rows raw) ∧
          report_complete s' r
            = Some (bool_decide (nextLink raw = None)) ∧
          Report.__len__ r s' = (Ok (length (page_rows raw)), s') ∧
          untouched s s'.
Proof.
  intros Hq. eexists _, _. split.
  { rewrite run_start. unfold Report.__init__, Report.append. run.
    reflexivity. }
  unfold report_rows, report_complete, Report.__len__.
  rewrite run_load_report, !lookup_grow_fresh. cbn.
  split; [done|]. split.
  { f_equal. by destruct (nextLink raw). }
  split; [done|]. intros l x Hl. by apply lookup_grow_old.
Qed.

(** X4: the headers of a report come from the catalog: a column that the
    page names but the catalog lacks is no header, and [report[key]] for it
    raises the [ValueError] of a missing column. *)
Theorem report_drops_unknown_column raw query s o key :
  heap s !! query = Some (OQuery o) →
  key ∉ col_id <$> columns (q_profile o) →
  ∃ r s', Report.__init__ raw query s = (Ok r, s') ∧
          (Report.__getitem__ r key s').1
            = Raise (ValueError (key +:+ " not in column headers")).
Proof.
  intros Hq Hkey. eexists _, _. split.
  { rewrite run_start. unfold Report.__init__, Report.append. run.
    reflexivity. }
  unfold Report.__getitem__. rewrite run_load_report, lookup_grow_fresh. cbn.
  unfold addressable.index, addressable.filter.
  rewrite seq_index_None; [done|].
  change (List.map col_id ?l) with (col_id <$> l). by apply filter_ids.
Qed.

(** X5: [append] adds the rows of the page after those the report has,
    records the query, and decides completeness from this page alone; the
    headers and [raw] stay those of the first page, and every other object
    is untouched. *)
Theorem append_accumulates self raw query s r :
  heap s !! self = Some (OReport r) →
  ∃ s', Report.append self raw query s = (Ok tt, s') ∧
        heap s' !! self = Some (OReport {|
          r_raw := r_raw r;
          r_queries := r_queries r ++ [query];
          r_headers := r_headers r;
          r_rows := r_rows r ++ page_rows raw;
          r_is_complete := bool_decide (nextLink raw = None) |}) ∧
        ∀ l o, l ≠ self → heap s !! l = Some o → heap s' !! l = Some o.
Proof.
  intros Hself. eexists. split.
  { unfold Report.append. rewrite run_load_report, Hself. reflexivity. }
  cbn. split.
  - rewrite list_lookup_insert_eq by (by apply lookup_lt_Some in Hself).
    do 2 f_equal. by destruct (nextLink raw).
  - intros l o Hl Ho. by rewrite list_lookup_insert_ne.
Qed.

(** ** [CoreQuery.__iter__] and [__len__] *)

Lemma bind_never_ok {A B} (m : M A) (k : A → M B) s :
  (∀ a s1 b, (k a s1).1 ≠ Ok b) → ∀ b, (bind m k s).1 ≠ Ok b.
Proof.
  intros Hk b. unfold bind. destruct (m s) as [[a|x|] s1]; [apply Hk|done..].
Qed.

(** X6: iterating over a query always fails.  When the query has a
    [report] attribute that refers to a report, [Report.__iter__] is
    reached and raises [NotImplementedError]; no request is sent and
    nothing changes.  When it has none, [execute] runs first: its failure
    is the failure of the iteration, and when it returns, the read of
    [self.report] raises [AttributeError], in the state [execute] left.
    In no case are rows returned. *)
Theorem iter_always_fails fuel self s o :
  heap s !! self = Some (OQuery o) →
  (∀ r ro, q_report o = Some r → heap s !! r = Some (OReport ro) →
     CoreQuery.__iter__ fuel self s = (Raise NotImplementedError, s)) ∧
  (q_report o = None →
     CoreQuery.__iter__ fuel self s =
       match execute fuel self s with
       | (Ok _, s') => (Raise (AttributeError "report"), s')
       | (Raise x, s') => (Raise x, s')
       | (Timeout, s') => (Timeout, s')
       end) ∧
  (∀ rows, (CoreQuery.__iter__ fuel self s).1 ≠ Ok rows).
Proof.
  intros Hself. split; [|split].
  - intros r ro Hrep Hr. destruct o as [ra me pr rep]. cbn in Hrep.
    subst rep. rewrite <- bind_ret_r.
    unfold CoreQuery.__iter__, has_report, self_report, Report.__iter__. run.
    replace (bool_decide (is_Some (Some r))) with true
      by (symmetry; by apply bool_decide_eq_true_2).
    cbn [negb]. run. done.
  - intros Hrep. unfold CoreQuery.__iter__, has_report.
    rewrite bind_assoc, run_load_query, Hself, run_ret, Hrep.
    replace (bool_decide (is_Some (@None loc))) with false by done.
    cbn [negb]. rewrite bind_assoc.
    pose proof (execute_preserves fuel self s self _ Hself) as Hkeep.
    unfold bind at 1.
    destruct (execute fuel self s) as [[r|x|] s1]; cbn [fst snd] in *;
      [|reflexivity..].
    unfold self_report.
    rewrite run_ret, bind_assoc, run_load_query, Hkeep, Hrep.
    apply run_raise.
  - intros rows. unfold CoreQuery.__iter__. apply bind_never_ok.
    intros has s1. apply bind_never_ok. intros _ s2. apply bind_never_ok.
    intros report s3. done.
Qed.

(** X7: on a query whose [report] attribute is set, [len] is the number of
    rows of that report; no request is sent and nothing changes. *)
Theorem len_of_executed fuel self s o r ro :
  heap s !! self = Some (OQuery o) →
  q_report o = Some r →
  heap s !! r = Some (OReport ro) →
  CoreQuery.__len__ fuel self s = (Ok (length (r_rows ro)), s).
Proof.
  intros Hself Hrep Hr. destruct o as [ra me pr rep]. cbn in Hrep. subst rep.
  rewrite <- bind_ret_r.
  unfold CoreQuery.__len__, has_report, self_report, Report.__len__. run.
  replace (bool_decide (is_Some (Some r))) with true
    by (symmetry; by apply bool_decide_eq_true_2).
  cbn [negb]. run. done.
Qed.

(** ** The chain operations in closed form *)

Lemma dicts_inv s q d md :
  raw_dict s q = Some d → meta_dict s q = Some md →
  ∃ o, heap s !! q = Some (OQuery o) ∧
       heap s !! q_raw o = Some (ODict d) ∧
       heap s !! q_meta o = Some (ODict md).
Proof.
  unfold raw_dict, meta_dict.
  destruct (heap s !! q) as [[| |o|]|] eqn:Hq; try done.
  destruct (heap s !! q_raw o) as [[|d'| |]|] eqn:Hraw; try done.
  destruct (heap s !! q_meta o) as [[|md'| |]|] eqn:Hmeta; try done.
  intros [= ->] [= ->]. by exists o.
Qed.

Lemma query_facts s p md d :
  let s' := grow s (query_objs (length (heap s)) p md d) [] in
  fresh_query s s' (length (heap s) + 2) ∧
  raw_dict s' (length (heap s) + 2) = Some d ∧
  meta_dict s' (length (heap s) + 2) = Some md ∧
  untouched s s'.
Proof.
  intros s'. subst s'. unfold query_objs. split; [|split; [|split]].
  - eexists. split; [by rewrite lookup_grow_fresh|]. cbn. repeat split; lia.
  - unfold raw_dict. rewrite lookup_grow_fresh.
    cbn [lookup list_lookup q_raw]. by rewrite lookup_grow_fresh.
  - unfold meta_dict. rewrite lookup_grow_fresh.
    cbn [lookup list_lookup q_meta]. by rewrite lookup_grow_fresh.
  - intros l o Hl. by apply lookup_grow_old.
Qed.

Lemma clone_facts s p md d :
  let s' := grow s (query_objs (length (heap s)) p (md ∪ ∅) d) [] in
  fresh_query s s' (length (heap s) + 2) ∧
  raw_dict s' (length (heap s) + 2) = Some d ∧
  meta_dict s' (length (heap s) + 2) = Some md ∧
  untouched s s'.
Proof.
  pose proof (query_facts s p (md ∪ ∅) d) as H.
  by rewrite (right_id_L ∅ (∪) md) in H |- *.
Qed.

Lemma immutable_ok {A} (method : loc → M A) self s o md d :
  heap s !! self = Some (OQuery o) →
  heap s !! q_meta o = Some (ODict md) →
  heap s !! q_raw o = Some (ODict d) →
  utils.immutable clone method self s =
    bind (method (length (heap s) + 2)) (λ _, ret (length (heap s) + 2))
      (grow s (query_objs (length (heap s)) (q_profile o) (md ∪ ∅) d) []).
Proof.
  intros Hself Hmeta Hraw. unfold utils.immutable.
  by rewrite (bind_eq _ _ _ _ _ (clone_ok _ _ _ _ _ Hself Hmeta Hraw)).
Qed.

(** X8: [clone] returns a new query object with its own raw and meta
    dicts, holding the same entries as those of the receiver (the
    identifier lists the entries refer to are the receiver's, not copies),
    and without a [report] attribute; the objects before it are
    untouched. *)
Theorem clone_is_copy self s d md :
  raw_dict s self = Some d → meta_dict s self = Some md →
  ∃ q' s', clone self s = (Ok q', s') ∧
           fresh_query s s' q' ∧
           raw_dict s' q' = Some d ∧ meta_dict s' q' = Some md ∧
           untouched s s'.
Proof.
  intros Hd Hmd. destruct (dicts_inv _ _ _ _ Hd Hmd) as (o & Hself & Hraw & Hmeta).
  eexists _, _. split; [by eapply clone_ok|].
  apply (clone_facts s (q_profile o) md d).
Qed.

(** X9: [step(maximum)] returns a new query whose raw parameters are those
    of the receiver with [max_results] set to [maximum]; its metadata are
    the receiver's, so no row limit is set; the objects before it are
    untouched. *)
Theorem step_sets_page_size maximum self s d md :
  raw_dict s self = Some d → meta_dict s self = Some md →
  ∃ q' s', step maximum self s = (Ok q', s') ∧
           fresh_query s s' q' ∧
           raw_dict s' q' = Some (<["max_results" := VInt maximum]> d) ∧
           meta_dict s' q' = Some md ∧
           untouched s s'.
Proof.
  intros Hd Hmd. destruct (dicts_inv _ _ _ _ Hd Hmd) as (o & Hself & Hraw & Hmeta).
  eexists _, _. split.
  { unfold step. rewrite (immutable_ok _ _ _ _ _ _ Hself Hmeta Hraw).
    unfold query_objs, step_method. unfold_py. run. reflexivity. }
  apply (clone_facts s (q_profile o) md).
Qed.

(** X10: [limit(start, maximum)], or [limit(maximum)] with [start] 1 (and
    any call with three or more arguments, which takes the first as
    [maximum]), returns a new query whose metadata are the receiver's with
    [limit] set to [maximum] and whose raw parameters are the receiver's
    with [start_index] and [max_results] set; the objects before it,
    the receiver's metadata among them, are untouched. *)
Theorem limit_sets _range start maximum self s d md :
  _range = [start; maximum] ∨
    (start = 1%Z ∧ ∃ rest, _range = maximum :: rest ∧ length rest ≠ 1) →
  raw_dict s self = Some d → meta_dict s self = Some md →
  ∃ q' s', limit _range self s = (Ok q', s') ∧
           fresh_query s s' q' ∧
           raw_dict s' q'
             = Some ({[ "start_index" := VInt start;
                        "max_results" := VInt maximum ]} ∪ d) ∧
           meta_dict s' q' = Some (<["limit" := VInt maximum]> md) ∧
           untouched s s'.
Proof.
  intros Hargs Hd Hmd.
  destruct (dicts_inv _ _ _ _ Hd Hmd) as (o & Hself & Hraw & Hmeta).
  eexists _, _. split.
  { unfold limit. rewrite (immutable_ok _ _ _ _ _ _ Hself Hmeta Hraw).
    unfold query_objs, limit_method. unfold_py.
    destruct Hargs as [->|(-> & rest & -> & Hrest)].
    - run. reflexivity.
    - destruct rest as [|b [|c rest]]; [|done|]; run;
        change (seq_getitem "tuple" (maximum :: _) 0) with (Ok maximum);
        cbv beta iota; run; reflexivity. }
  rewrite (right_id_L ∅ (∪) md). apply (query_facts s (q_profile o)).
Qed.

(** X11: [limit()] with no argument raises the [IndexError] of
    [_range[0]]; the objects before the call are untouched. *)
Theorem limit_no_argument self s d md :
  raw_dict s self = Some d → meta_dict s self = Some md →
  (limit [] self s).1 = Raise (IndexError "tuple index out of range") ∧
  untouched s (limit [] self s).2.
Proof.
  intros Hd Hmd.
  destruct (dicts_inv _ _ _ _ Hd Hmd) as (o & Hself & Hraw & Hmeta).
  unfold limit. rewrite (immutable_ok _ _ _ _ _ _ Hself Hmeta Hraw).
  unfold query_objs, limit_method. unfold_py. run.
  split; [done|]. intros l x Hl. by apply lookup_grow_old.
Qed.

(** X12: [next(start)] returns a new query whose raw parameters are the
    receiver's with [start_index] set: to [start] when it is given and not
    0, otherwise to the receiver's [max_results] (1000 when it has none)
    plus 1, whatever [start_index] the receiver has. *)
Theorem next_start start m self s d md :
  d !! "max_results" = Some (VInt m) ∨
    (d !! "max_results" = None ∧ m = 1000%Z) →
  raw_dict s self = Some d → meta_dict s self = Some md →
  ∃ q' s', next start self s = (Ok q', s') ∧
           fresh_query s s' q' ∧
           raw_dict s' q'
             = Some (<["start_index" :=
                         VInt (match start with
                               | Some z => if (z =? 0)%Z then m + 1 else z
                               | None => m + 1
                               end)%Z]> d) ∧
           meta_dict s' q' = Some md ∧
           untouched s s'.
Proof.
  intros Hmax Hd Hmd.
  destruct (dicts_inv _ _ _ _ Hd Hmd) as (o & Hself & Hraw & Hmeta).
  assert (add1 (default (VInt 1000) (d !! "max_results")) = Ok (m + 1)%Z)
    as Hadd.
  { by destruct Hmax as [->|[-> ->]]. }
  exists (length (heap s) + 2),
    (grow s (query_objs (length (heap s)) (q_profile o) (md ∪ ∅)
               (<["start_index" :=
                    VInt (match start with
                          | Some z => if (z =? 0)%Z then m + 1 else z
                          | None => m + 1
                          end)%Z]> d)) []).
  split.
  { unfold next. rewrite (immutable_ok _ _ _ _ _ _ Hself Hmeta Hraw).
    unfold query_objs, next_method. unfold_py.
    destruct start as [z|]; [destruct (z =? 0)%Z|]; run;
      rewrite ?Hadd; cbv beta iota; run; reflexivity. }
  apply (clone_facts s (q_profile o) md).
Qed.


(** ** [range] *)


Lemma precision_by_index i lv :
  (-3 ≤ i < 3)%Z →
  PRECISION_LEVELS !! Z.to_nat (i `mod` 3) = Some lv →
  seq_getitem "tuple" PRECISION_LEVELS i = Ok lv ∧ lv ∈ PRECISION_LEVELS.
Proof.
  intros Hi.
  assert (i = -3 ∨ i = -2 ∨ i = -1 ∨ i = 0 ∨ i = 1 ∨ i = 2)%Z
    as [-> | [-> | [-> | [-> | [-> | ->]]]]] by lia;
    cbn; intros [= <-]; (split; [done|]); unfold PRECISION_LEVELS;
    rewrite !elem_of_cons; auto.
Qed.

(** X14: [range] with a precision that is one of the three tokens, or an
    index from -3 to 2 (negative indices count from the end), and without
    an effective granularity ([None], [0] or the empty string), returns a
    new query whose raw parameters are the receiver's with [start_date],
    [end_date] and [samplingLevel] set; the objects before it are
    untouched. *)
Theorem range_sets daterange start stop months days dates precision lv
    granularity self s d md :
  daterange start stop months days = Ok dates →
  (precision = AStr lv ∧ lv ∈ PRECISION_LEVELS) ∨
    (∃ i, precision = AInt i ∧ (-3 ≤ i < 3)%Z ∧
          PRECISION_LEVELS !! Z.to_nat (i `mod` 3) = Some lv) →
  truthy granularity = false →
  raw_dict s self = Some d → meta_dict s self = Some md →
  ∃ q' s', range daterange start stop months days precision granularity
             self s = (Ok q', s') ∧
           fresh_query s s' q' ∧
           raw_dict s' q'
             = Some ({[ "samplingLevel" := VStr lv ]} ∪
                     ({[ "start_date" := VStr dates.1;
                         "end_date" := VStr dates.2 ]} ∪ d)) ∧
           meta_dict s' q' = Some md ∧
           untouched s s'.
Proof.
  intros Hdates Hprec Hgran Hd Hmd.
  destruct (dicts_inv _ _ _ _ Hd Hmd) as (o & Hself & Hraw & Hmeta).
  assert ((match precision with
           | AInt i => lift (seq_getitem "tuple" PRECISION_LEVELS i)
           | AStr s => ret s
           end) = ret lv ∧ lv ∈ PRECISION_LEVELS) as [Hlv Hin].
  { destruct Hprec as [[-> Hin]|(i & -> & Hi & Hlv)]; [done|].
    destruct (precision_by_index i lv Hi Hlv) as [-> Hin]. done. }
  eexists _, _. split.
  { unfold range. rewrite (immutable_ok _ _ _ _ _ _ Hself Hmeta Hraw).
    unfold query_objs, range_method. unfold_py. rewrite Hdates. run.
    rewrite Hlv. run. rewrite (bool_decide_eq_true_2 _ Hin). cbn [negb]. run.
    rewrite Hgran. run. reflexivity. }
  apply (clone_facts s (q_profile o) md).
Qed.


(** X16: [range] with a precision token that is none of the three levels
    raises the [ValueError] that lists them; the objects before the call
    are untouched. *)
Theorem range_unknown_precision daterange start stop months days dates t
    granularity self s d md :
  daterange start stop months days = Ok dates →
  t ∉ PRECISION_LEVELS →
  raw_dict s self = Some d → meta_dict s self = Some md →
  (range daterange start stop months days (AStr t) granularity self s).1
    = Raise (ValueError
        "Granularity should be one of: FASTER, DEFAULT, HIGH_PRECISION") ∧
  untouched s
    (range daterange start stop months days (AStr t) granularity self s).2.
Proof.
  intros Hdates Ht Hd Hmd.
  destruct (dicts_inv _ _ _ _ Hd Hmd) as (o & Hself & Hraw & Hmeta).
  unfold range. rewrite (immutable_ok _ _ _ _ _ _ Hself Hmeta Hraw).
  unfold query_objs, range_method. unfold_py. rewrite Hdates. run.
  rewrite (bool_decide_eq_false_2 _ Ht). cbn [negb]. run.
  split; [done|]. intros l x Hl. by apply lookup_grow_old.
Qed.

(** ** Stores into objects of the receiver *)

Lemma length_upd s l o : length (heap (upd s l o)) = length (heap s).
Proof. apply length_insert. Qed.

Lemma lookup_upd_eq s l o x :
  heap s !! l = Some x → heap (upd s l o) !! l = Some o.
Proof. intros Hl. apply list_lookup_insert_eq. by apply lookup_lt_Some in Hl. Qed.

Lemma lookup_upd_ne s l o l' :
  l ≠ l' → heap (upd s l o) !! l' = heap s !! l'.
Proof. intros Hne. by apply list_lookup_insert_ne. Qed.

Lemma lookup_grow_fresh_len b n e rq i :
  length (heap b) = n → heap (grow b e rq) !! (n + i) = e !! i.
Proof. intros <-. apply lookup_grow_fresh. Qed.

Lemma run_store_old {B} l o x (k : unit → M B) s e rq :
  heap s !! l = Some x →
  bind (store l o) k (grow s e rq) = k tt (grow (upd s l o) e rq).
Proof.
  intros Hl. unfold bind, store, grow, upd; cbn.
  rewrite insert_app_l; [done|]. by apply lookup_lt_Some in Hl.
Qed.

Lemma granularity_by_index z dim :
  z ≠ 0%Z → (-5 ≤ z < 5)%Z →
  GRANULARITY_DIMENSIONS !! Z.to_nat (z `mod` 5) = Some dim →
  seq_getitem "tuple" GRANULARITY_DIMENSIONS z = Ok dim.
Proof.
  intros Hz Hrange.
  assert (z = -5 ∨ z = -4 ∨ z = -3 ∨ z = -2 ∨ z = -1 ∨
          z = 1 ∨ z = 2 ∨ z = 3 ∨ z = 4)%Z
    as [-> | [-> | [-> | [-> | [-> | [-> | [-> | [-> | ->]]]]]]]] by lia;
    cbn; by intros [= <-].
Qed.

(** X17: [range] with a valid precision (a level name or an index from -3
    to 2, the default 1 among them) and a granularity, given as a name of
    [GRANULARITY_LEVELS] or as a non-zero index from -5 to 4, returns a
    new query with [start_date], [end_date] and [samplingLevel] set, and
    puts the time dimension of that granularity at the front of the
    dimension list.  That list is the receiver's own, at the address [ld]
    that both raw dicts hold, so the receiver's dimensions change with
    those of the new query; every object at another address is as
    before.  [hours], [days], [weeks], [months] and [years] are [range]
    with the granularity name filled in. *)
Theorem range_granularity daterange start stop months days dates
    precision lv granularity dim self s d md ld ds :
  daterange start stop months days = Ok dates →
  (precision = AStr lv ∧ lv ∈ PRECISION_LEVELS) ∨
    (∃ i, precision = AInt i ∧ (-3 ≤ i < 3)%Z ∧
          PRECISION_LEVELS !! Z.to_nat (i `mod` 3) = Some lv) →
  (∃ g i, granularity = Some (AStr g) ∧
          GRANULARITY_LEVELS !! i = Some g ∧
          GRANULARITY_DIMENSIONS !! i = Some dim) ∨
    (∃ z, granularity = Some (AInt z) ∧ z ≠ 0%Z ∧ (-5 ≤ z < 5)%Z ∧
          GRANULARITY_DIMENSIONS !! Z.to_nat (z `mod` 5) = Some dim) →
  raw_dict s self = Some d → meta_dict s self = Some md →
  d !! "dimensions" = Some (VRef ld) → heap s !! ld = Some (OList ds) →
  ∃ q' s', range daterange start stop months days precision granularity
             self s = (Ok q', s') ∧
           fresh_query s s' q' ∧
           raw_dict s' q'
             = Some ({[ "samplingLevel" := VStr lv ]} ∪
                     ({[ "start_date" := VStr dates.1;
                         "end_date" := VStr dates.2 ]} ∪ d)) ∧
           meta_dict s' q' = Some md ∧
           raw_list s' q' "dimensions" = Some (dim :: ds) ∧
           raw_list s' self "dimensions" = Some (dim :: ds) ∧
           heap s' !! ld = Some (OList (dim :: ds)) ∧
           ∀ l o, l ≠ ld → heap s !! l = Some o → heap s' !! l = Some o.
Proof.
  intros Hdates Hprec Hgran Hd Hmd Hdims Hld.
  destruct (dicts_inv _ _ _ _ Hd Hmd) as (o & Hself & Hraw & Hmeta).
  assert ((match precision with
           | AInt i => lift (seq_getitem "tuple" PRECISION_LEVELS i)
           | AStr s => ret s
           end) = ret lv ∧ lv ∈ PRECISION_LEVELS) as [Hlv Hin].
  { destruct Hprec as [[-> Hin]|(i & -> & Hi & Hlv)]; [done|].
    destruct (precision_by_index i lv Hi Hlv) as [-> Hin]. done. }
  assert (∃ zi,
    (match granularity with
     | Some (AStr g) =>
         if bool_decide (g ∈ GRANULARITY_LEVELS) then
           match seq_index g GRANULARITY_LEVELS with
           | Some i => ret (Z.of_nat i)
           | None => raise (ValueError "not in tuple")
           end
         else raise (NameError "options")
     | Some (AInt i) => ret i
     | None => ret 0%Z
     end) = ret zi ∧
    seq_getitem "tuple" GRANULARITY_DIMENSIONS zi = Ok dim ∧
    truthy granularity = true) as (zi & Hzi & Hget & Htruthy).
  { destruct Hgran as [(g & i & -> & Hg & Hdim)|(z & -> & Hz & Hrange & Hdim)].
    - exists (Z.of_nat i).
      split; [|split; [by apply seq_getitem_nat|]].
      + assert (i < 5) as Hi by (by apply lookup_lt_Some in Hg).
        destruct i as [|[|[|[|[|i]]]]]; [..|lia];
          cbn in Hg; injection Hg as <-; reflexivity.
      + assert (i < 5) as Hi by (by apply lookup_lt_Some in Hg).
        destruct i as [|[|[|[|[|i]]]]]; [..|lia];
          cbn in Hg; injection Hg as <-; reflexivity.
    - exists z. split; [done|]. split; [by apply granularity_by_index|].
      cbn [truthy]. by destruct (Z.eqb_spec z 0). }
  set (d' := {[ "samplingLevel" := VStr lv ]} ∪
             ({[ "start_date" := VStr dates.1;
                 "end_date" := VStr dates.2 ]} ∪ d)).
  assert (d' !! "dimensions" = Some (VRef ld)) as Hdims'.
  { subst d'. by rewrite !lookup_union_r. }
  exists (length (heap s) + 2),
    (grow (upd s ld (OList (dim :: ds)))
       (query_objs (length (heap s)) (q_profile o) (md ∪ ∅) d') []).
  assert (self ≠ ld) as Hne by (intros ->; congruence).
  assert (q_raw o ≠ ld) as Hraw_ne by (intros Heq; congruence).
  split.
  { unfold range. rewrite (immutable_ok _ _ _ _ _ _ Hself Hmeta Hraw).
    unfold query_objs, range_method. unfold_py. rewrite Hdates. run.
    rewrite Hlv. run. rewrite (bool_decide_eq_true_2 _ Hin). cbn [negb]. run.
    rewrite Htruthy. run. rewrite Hzi. run. rewrite Hget. run.
    fold d'. rewrite Hdims'. run.
    erewrite run_store_old by (by apply lookup_grow_old || eassumption).
    run. reflexivity. }
  split.
  { eexists. split.
    - unfold query_objs.
      by rewrite (lookup_grow_fresh_len _ (length (heap s)))
        by apply length_upd.
    - cbn [q_raw q_meta q_report]. repeat split; lia. }
  assert (raw_dict (grow (upd s ld (OList (dim :: ds)))
            (query_objs (length (heap s)) (q_profile o) (md ∪ ∅) d') [])
            (length (heap s) + 2) = Some d') as Hd'.
  { unfold raw_dict, query_objs.
    rewrite (lookup_grow_fresh_len _ (length (heap s))) by apply length_upd.
    cbn [lookup list_lookup q_raw].
    by rewrite (lookup_grow_fresh_len _ (length (heap s)))
      by apply length_upd. }
  assert (heap (grow (upd s ld (OList (dim :: ds)))
            (query_objs (length (heap s)) (q_profile o) (md ∪ ∅) d') [])
          !! ld = Some (OList (dim :: ds))) as Hld'.
  { by erewrite lookup_grow_old by (by eapply lookup_upd_eq). }
  split; [exact Hd'|].
  split.
  { unfold meta_dict, query_objs.
    rewrite (lookup_grow_fresh_len _ (length (heap s))) by apply length_upd.
    cbn [lookup list_lookup q_meta].
    rewrite (lookup_grow_fresh_len _ (length (heap s))) by apply length_upd.
    cbn [lookup list_lookup]. by rewrite (right_id_L ∅ (∪) md). }
  split; [unfold raw_list; by rewrite Hd', Hdims', Hld'|].
  split.
  { unfold raw_list, raw_dict.
    erewrite lookup_grow_old by (rewrite lookup_upd_ne by done; exact Hself).
    cbv beta iota.
    erewrite lookup_grow_old by (rewrite lookup_upd_ne by done; exact Hraw).
    cbv beta iota. by rewrite Hdims, Hld'. }
  split; [exact Hld'|].
  intros l x Hl_ne Hl. apply lookup_grow_old. by rewrite lookup_upd_ne.
Qed.

Ltac run_upd1 :=
  first
    [ run1
    | rewrite length_upd
    | match goal with
      | H : length (heap ?b) = _ |- context [length (heap ?b)] => rewrite H
      end
    | erewrite lookup_grow_fresh_len by eassumption ];
  cbn [length app lookup list_lookup insert list_insert Nat.add
       q_raw q_meta q_profile q_report].

Ltac run_upd := repeat run_upd1.

(** ** [specify] *)

(** X18: [specify] resolves the columns and appends their identifiers, in
    order, after those the query has.  The two lists are the ones the
    receiver refers to, so the receiver's metrics and dimensions grow with
    those of the new query. *)
Theorem specify_appends metrics dimensions xs ys self s o d md lm ld ms ds :
  heap s !! self = Some (OQuery o) →
  _serialize_columns (q_profile o) metrics = Ok xs →
  _serialize_columns (q_profile o) dimensions = Ok ys →
  raw_dict s self = Some d → meta_dict s self = Some md →
  d !! "metrics" = Some (VRef lm) → heap s !! lm = Some (OList ms) →
  d !! "dimensions" = Some (VRef ld) → heap s !! ld = Some (OList ds) →
  lm ≠ ld →
  ∃ q' s', specify metrics dimensions self s = (Ok q', s') ∧
           q' ≠ self ∧
           raw_list s' q' "metrics" = Some (ms ++ xs) ∧
           raw_list s' q' "dimensions" = Some (ds ++ ys) ∧
           raw_list s' self "metrics" = Some (ms ++ xs) ∧
           raw_list s' self "dimensions" = Some (ds ++ ys).
Proof.
  intros Hself Hxs Hys Hd Hmd Hm Hlm Hdim Hld Hne.
  destruct (dicts_inv _ _ _ _ Hd Hmd) as (o' & Hself' & Hraw & Hmeta).
  assert (o' = o) as -> by congruence. clear Hself'.
  set (s1 := upd s lm (OList (ms ++ xs))).
  set (s2 := upd s1 ld (OList (ds ++ ys))).
  assert (heap s1 !! ld = Some (OList ds)) as Hld1.
  { subst s1. by rewrite lookup_upd_ne. }
  assert (length (heap s1) = length (heap s)) as Hlen1
    by apply length_upd.
  assert (length (heap s2) = length (heap s)) as Hlen
    by (subst s2; by rewrite length_upd).
  assert (∃ e, specify metrics dimensions self s
               = (Ok (length (heap s) + 2),
                  grow s2 (query_objs (length (heap s)) (q_profile o)
                             (md ∪ ∅) d ++ e) []))
    as (e & Hrun).
  { eexists. unfold specify.
    rewrite (immutable_ok _ _ _ _ _ _ Hself Hmeta Hraw).
    unfold query_objs, _specify. unfold_py. run. rewrite Hxs. run.
    rewrite Hys. run.
    rewrite (run_store_old lm _ _ _ s _ _ Hlm). fold s1. run_upd.
    rewrite (run_store_old ld _ _ _ s1 _ _ Hld1). fold s2. run_upd.
    reflexivity. }
  assert (heap s2 !! lm = Some (OList (ms ++ xs))) as Hlm2.
  { subst s2. rewrite lookup_upd_ne by done. subst s1.
    by eapply lookup_upd_eq. }
  assert (heap s2 !! ld = Some (OList (ds ++ ys))) as Hld2.
  { subst s2. by eapply lookup_upd_eq. }
  assert (∀ l x, l ≠ lm → l ≠ ld → heap s !! l = Some x →
                 heap s2 !! l = Some x) as Hkeep.
  { intros l x H1 H2 Hl. subst s2 s1. by rewrite !lookup_upd_ne. }
  eexists _, _. split; [exact Hrun|].
  split; [apply lookup_lt_Some in Hself; lia|].
  assert (∀ k l zs, d !! k = Some (VRef l) → heap s2 !! l = Some (OList zs) →
    raw_list (grow s2 (query_objs (length (heap s)) (q_profile o)
                         (md ∪ ∅) d ++ e) [])
      (length (heap s) + 2) k = Some zs) as Hnew.
  { intros k l zs Hk Hl. unfold raw_list, raw_dict, query_objs.
    rewrite (lookup_grow_fresh_len _ (length (heap s))) by done.
    cbn [app lookup list_lookup q_raw].
    rewrite (lookup_grow_fresh_len _ (length (heap s))) by done.
    cbn [lookup list_lookup]. rewrite Hk.
    by erewrite lookup_grow_old by exact Hl. }
  assert (∀ k l zs, d !! k = Some (VRef l) → heap s2 !! l = Some (OList zs) →
    raw_list (grow s2 (query_objs (length (heap s)) (q_profile o)
                         (md ∪ ∅) d ++ e) []) self k = Some zs) as Hold.
  { intros k l zs Hk Hl. unfold raw_list, raw_dict.
    erewrite lookup_grow_old
      by (apply Hkeep; [congruence..|exact Hself]).
    cbv beta iota.
    erewrite lookup_grow_old
      by (apply Hkeep; [congruence..|exact Hraw]).
    cbv beta iota. rewrite Hk. by erewrite lookup_grow_old by exact Hl. }
  repeat split; [by eapply Hnew..|by eapply Hold|by eapply Hold].
Qed.

(** X19: when a metric or a dimension cannot be resolved, [specify] raises
    the resolution error before anything is appended: every object that
    existed keeps its value. *)
Theorem specify_unresolved metrics dimensions self s o d md e :
  heap s !! self = Some (OQuery o) →
  raw_dict s self = Some d → meta_dict s self = Some md →
  _serialize_columns (q_profile o) metrics = Raise e ∨
  ((∃ xs, _serialize_columns (q_profile o) metrics = Ok xs) ∧
   _serialize_columns (q_profile o) dimensions = Raise e) →
  ∃ s', specify metrics dimensions self s = (Raise e, s') ∧ untouched s s'.
Proof.
  intros Hself Hd Hmd Hbad.
  destruct (dicts_inv _ _ _ _ Hd Hmd) as (o' & Hself' & Hraw & Hmeta).
  assert (o' = o) as -> by congruence. clear Hself'.
  exists (grow s (query_objs (length (heap s)) (q_profile o) (md ∪ ∅) d) []).
  split; [|intros l x Hl; by apply lookup_grow_old].
  unfold specify. rewrite (immutable_ok _ _ _ _ _ _ Hself Hmeta Hraw).
  unfold query_objs, _specify. unfold_py. run.
  destruct Hbad as [Hm|[[xs Hm] Hdm]].
  - rewrite Hm. by run.
  - rewrite Hm. run. rewrite Hdm. by run.
Qed.

(** X20: the columns are resolved from left to right and the error of the
    first one that fails is the error of the whole list. *)
Theorem serialize_columns_first_error p pre v post xs e :
  _serialize_columns p (Many pre) = Ok xs →
  _serialize_column p v = Raise e →
  _serialize_columns p (Many (pre ++ v :: post)) = Raise e.
Proof.
  unfold _serialize_columns. revert xs.
  induction pre as [|u pre IH]; intros xs Hpre Hv; cbn [app serialize_each].
  - by rewrite Hv.
  - cbn [serialize_each] in Hpre.
    destruct (_serialize_column p u) as [x| |]; [|done..].
    destruct (serialize_each p pre) as [xs'| |] eqn:Hxs; [|done..].
    by rewrite (IH xs').
Qed.

(** ** [execute] *)

(** X21: [execute] sends one request, the raw entries with the metrics
    and the dimensions joined by commas, and when the limit is below 1000
    or the page has no next link it returns, for any positive budget, a
    report of that page's rows; the objects that existed are untouched. *)
Theorem execute_single_page fuel self s o d md lm ld ms ds page lim :
  heap s !! self = Some (OQuery o) →
  raw_dict s self = Some d → meta_dict s self = Some md →
  d !! "metrics" = Some (VRef lm) → heap s !! lm = Some (OList ms) →
  d !! "dimensions" = Some (VRef ld) → heap s !! ld = Some (OList ds) →
  service (q_profile o) (log s) (request_of d ms ds) = Ok page →
  get_limit md = Ok lim →
  inf_ltb lim 1000 = true ∨ nextLink page = None →
  ∃ r s', execute (S fuel) self s = (Ok r, s') ∧
          report_rows s' r = Some (page_rows page) ∧
          log s' = log s ++ [request_of d ms ds] ∧
          untouched s s'.
Proof.
  intros Hself Hd Hmd Hm Hlm Hdim Hld Hsvc Hlim Hstop.
  destruct (dicts_inv _ _ _ _ Hd Hmd) as (o' & Hself' & Hraw & Hmeta).
  assert (o' = o) as -> by congruence. clear Hself'.
  set (rep := OReport {|
    r_raw := page; r_queries := [self];
    r_headers := addressable.filter
      (λ col, bool_decide (col_id col ∈ columnHeaders page))
      (columns (q_profile o));
    r_rows := page_rows page;
    r_is_complete := negb (bool_decide (is_Some (nextLink page))) |}).
  exists (length (heap s) + 1),
    (grow s [ODict (request_of d ms ds); rep] [request_of d ms ds]).
  split; [|split; [|split]].
  - rewrite run_start. cbn [execute]. unfold join_into, self_limit.
    unfold_py. run. unfold str_join. run.
    rewrite app_nil_r. fold (request_of d ms ds). rewrite Hsvc.
    run. rewrite Hlim. run.
    unfold Report.__init__, Report.append. run.
    destruct fuel as [|fuel']; cbn [while]; run.
    all: assert (negb (inf_ltb lim 1000
                       || negb (bool_decide (is_Some (nextLink page))))
                 = false) as ->
      by (destruct Hstop as [-> | ->]; [done|by rewrite orb_true_r]).
    all: by run.
  - unfold report_rows. by rewrite lookup_grow_fresh.
  - done.
  - intros l x Hl. by apply lookup_grow_old.
Qed.

(** X22: when the transport fails on the first request, [execute] raises
    the transport's error; the request has been sent and the objects that
    existed are untouched. *)
Theorem execute_transport_error fuel self s o d md lm ld ms ds x :
  heap s !! self = Some (OQuery o) →
  raw_dict s self = Some d → meta_dict s self = Some md →
  d !! "metrics" = Some (VRef lm) → heap s !! lm = Some (OList ms) →
  d !! "dimensions" = Some (VRef ld) → heap s !! ld = Some (OList ds) →
  service (q_profile o) (log s) (request_of d ms ds) = Raise x →
  ∃ s', execute (S fuel) self s = (Raise x, s') ∧
        log s' = log s ++ [request_of d ms ds] ∧
        untouched s s'.
Proof.
  intros Hself Hd Hmd Hm Hlm Hdim Hld Hsvc.
  destruct (dicts_inv _ _ _ _ Hd Hmd) as (o' & Hself' & Hraw & Hmeta).
  assert (o' = o) as -> by congruence. clear Hself'.
  exists (grow s [ODict (request_of d ms ds)] [request_of d ms ds]).
  split; [|split].
  - rewrite run_start. cbn [execute]. unfold join_into.
    unfold_py. run. unfold str_join. run.
    rewrite app_nil_r. fold (request_of d ms ds). by rewrite Hsvc.
  - done.
  - intros l y Hl. by apply lookup_grow_old.
Qed.

(** ** The properties at concrete inputs *)

Lemma getitem_reads_column_witness :
  ∃ col, Report.__getitem__ 0 "ga:sessions" whole_state
           = (Ok col, whole_state) ∧
         length col = 2 ∧
         ∀ j row, r_rows whole_report !! j = Some row → col !! j = row !! 1.
Proof.
  apply (getitem_reads_column 0 whole_state whole_report "ga:sessions" 1).
  - reflexivity.
  - reflexivity.
  - intros [|j] Hj; [discriminate|lia].
  - apply Forall_forall. repeat constructor.
Defined.

Lemma getitem_short_row_witness :
  Report.__getitem__ 0 "ga:sessions" ragged_state =
    (Raise (IndexError "list index out of range"), ragged_state).
Proof.
  apply (getitem_short_row 0 ragged_state ragged_report "ga:sessions" 1
           ["20230102"]).
  - reflexivity.
  - reflexivity.
  - intros [|j] Hj; [discriminate|lia].
  - apply list_elem_of_further, list_elem_of_here.
  - apply le_n.
Defined.

Lemma report_of_page_witness :
  ∃ r s', Report.__init__ demo_page 2 demo_init.2 = (Ok r, s') ∧
          report_rows s' r = Some [["20230101"; "10"]] ∧
          report_complete s' r = Some true ∧
          Report.__len__ r s' = (Ok 1, s') ∧
          untouched demo_init.2 s'.
Proof.
  apply (report_of_page demo_page 2 demo_init.2 demo_query). reflexivity.
Defined.

Lemma report_drops_unknown_column_witness :
  ∃ r s', Report.__init__
            {| columnHeaders := ["ga:date"; "ga:bogus"];
               page_rows := [["20230101"; "7"]]; nextLink := None |}
            2 demo_init.2 = (Ok r, s') ∧
          (Report.__getitem__ r "ga:bogus" s').1
            = Raise (ValueError "ga:bogus not in column headers").
Proof.
  apply (report_drops_unknown_column _ 2 demo_init.2 demo_query "ga:bogus").
  - reflexivity.
  - apply (bool_decide_unpack _). reflexivity.
Defined.

Lemma append_accumulates_witness :
  ∃ s', Report.append 0 demo_page 2 whole_state = (Ok tt, s') ∧
        heap s' !! 0 = Some (OReport {|
          r_raw := demo_page;
          r_queries := [2; 2];
          r_headers := [ga_date; ga_sessions];
          r_rows := [["20230101"; "10"]; ["20230102"; "20"];
                     ["20230101"; "10"]];
          r_is_complete := true |}) ∧
        ∀ l o, l ≠ 0 → heap whole_state !! l = Some o →
               heap s' !! l = Some o.
Proof.
  apply (append_accumulates 0 demo_page 2 whole_state whole_report).
  reflexivity.
Defined.

Lemma iter_always_fails_witness :
  CoreQuery.__iter__ 0 2 executed_state
    = (Raise NotImplementedError, executed_state) ∧
  (CoreQuery.__iter__ 1 2 demo_init.2).1 = Raise (AttributeError "report").
Proof.
  split.
  - destruct (iter_always_fails 0 2 executed_state
                {| q_raw := 0; q_meta := 1; q_profile := demo_profile;
                   q_report := Some 3 |} eq_refl) as (Hset & _ & _).
    apply (Hset 3 whole_report); reflexivity.
  - destruct (iter_always_fails 1 2 demo_init.2 demo_query eq_refl)
      as (_ & Hunset & _).
    rewrite (Hunset eq_refl). reflexivity.
Defined.

Lemma len_of_executed_witness :
  CoreQuery.__len__ 0 2 executed_state = (Ok 2, executed_state).
Proof.
  apply (len_of_executed 0 2 executed_state
           {| q_raw := 0; q_meta := 1; q_profile := demo_profile;
              q_report := Some 3 |} 3 whole_report); reflexivity.
Defined.

Lemma clone_is_copy_witness :
  ∃ q' s', clone 2 demo_init.2 = (Ok q', s') ∧
           fresh_query demo_init.2 s' q' ∧
           raw_dict s' q' = Some demo_raw ∧ meta_dict s' q' = Some ∅ ∧
           untouched demo_init.2 s'.
Proof.
  apply (clone_is_copy 2 demo_init.2 demo_raw ∅); reflexivity.
Defined.

Lemma step_sets_page_size_witness :
  ∃ q' s', step 50 2 demo_init.2 = (Ok q', s') ∧
           fresh_query demo_init.2 s' q' ∧
           raw_dict s' q' = Some (<["max_results" := VInt 50]> demo_raw) ∧
           meta_dict s' q' = Some ∅ ∧
           untouched demo_init.2 s'.
Proof.
  apply (step_sets_page_size 50 2 demo_init.2 demo_raw ∅); reflexivity.
Defined.

Lemma limit_sets_witness :
  ∃ q' s', limit [10%Z] 2 demo_init.2 = (Ok q', s') ∧
           fresh_query demo_init.2 s' q' ∧
           raw_dict s' q'
             = Some ({[ "start_index" := VInt 1;
                        "max_results" := VInt 10 ]} ∪ demo_raw) ∧
           meta_dict s' q' = Some (<["limit" := VInt 10]> ∅) ∧
           untouched demo_init.2 s'.
Proof.
  apply (limit_sets [10%Z] 1 10 2 demo_init.2 demo_raw ∅).
  - right. split; [reflexivity|]. exists []. split; [reflexivity|].
    discriminate.
  - reflexivity.
  - reflexivity.
Defined.

Lemma limit_no_argument_witness :
  (limit [] 2 demo_init.2).1 = Raise (IndexError "tuple index out of range") ∧
  untouched demo_init.2 (limit [] 2 demo_init.2).2.
Proof.
  apply (limit_no_argument 2 demo_init.2 demo_raw ∅); reflexivity.
Defined.

Lemma next_start_witness :
  ∃ q' s', next None 2 demo_init.2 = (Ok q', s') ∧
           fresh_query demo_init.2 s' q' ∧
           raw_dict s' q' = Some (<["start_index" := VInt 1001]> demo_raw) ∧
           meta_dict s' q' = Some ∅ ∧
           untouched demo_init.2 s'.
Proof.
  apply (next_start None 1000 2 demo_init.2 demo_raw ∅).
  - right. split; reflexivity.
  - reflexivity.
  - reflexivity.
Defined.

Lemma range_sets_witness :
  ∃ q' s', range fixed_dates "2023-01-01" None 0 0 (AInt (-1)) None
             2 demo_init.2 = (Ok q', s') ∧
           fresh_query demo_init.2 s' q' ∧
           raw_dict s' q'
             = Some ({[ "samplingLevel" := VStr "HIGH_PRECISION" ]} ∪
                     ({[ "start_date" := VStr "2023-01-01";
                         "end_date" := VStr "2023-01-01" ]} ∪ demo_raw)) ∧
           meta_dict s' q' = Some ∅ ∧
           untouched demo_init.2 s'.
Proof.
  apply (range_sets fixed_dates "2023-01-01" None 0 0
           ("2023-01-01", "2023-01-01") (AInt (-1)) "HIGH_PRECISION" None
           2 demo_init.2 demo_raw ∅).
  - reflexivity.
  - right. exists (-1)%Z. split; [reflexivity|]. split; [lia|reflexivity].
  - reflexivity.
  - reflexivity.
  - reflexivity.
Defined.


Lemma range_unknown_precision_witness :
  (range fixed_dates "2023-01-01" None 0 0 (AStr "day") None
     2 demo_init.2).1
    = Raise (ValueError
        "Granularity should be one of: FASTER, DEFAULT, HIGH_PRECISION") ∧
  untouched demo_init.2
    (range fixed_dates "2023-01-01" None 0 0 (AStr "day") None
       2 demo_init.2).2.
Proof.
  apply (range_unknown_precision fixed_dates "2023-01-01" None 0 0
           ("2023-01-01", "2023-01-01") "day" None 2 demo_init.2
           demo_raw ∅).
  - reflexivity.
  - apply (bool_decide_unpack _). reflexivity.
  - reflexivity.
  - reflexivity.
Defined.

Lemma range_granularity_witness :
  ∃ q' s', days fixed_dates "2023-01-01" None 0 0 (AInt 1) 2 demo_init.2
             = (Ok q', s') ∧
           fresh_query demo_init.2 s' q' ∧
           raw_dict s' q'
             = Some ({[ "samplingLevel" := VStr "DEFAULT" ]} ∪
                     ({[ "start_date" := VStr "2023-01-01";
                         "end_date" := VStr "2023-01-01" ]} ∪ demo_raw)) ∧
           meta_dict s' q' = Some ∅ ∧
           raw_list s' q' "dimensions" = Some ["ga:date"; "ga:date"] ∧
           raw_list s' 2 "dimensions" = Some ["ga:date"; "ga:date"] ∧
           heap s' !! 4 = Some (OList ["ga:date"; "ga:date"]) ∧
           ∀ l o, l ≠ 4 → heap demo_init.2 !! l = Some o →
                  heap s' !! l = Some o.
Proof.
  apply (range_granularity fixed_dates "2023-01-01" None 0 0
           ("2023-01-01", "2023-01-01") (AInt 1) "DEFAULT"
           (Some (AStr "day")) "ga:date" 2 demo_init.2 demo_raw ∅ 4
           ["ga:date"]).
  - reflexivity.
  - right. exists 1%Z. split; [reflexivity|]. split; [lia|reflexivity].
  - left. exists "day", 3. split; [reflexivity|]. split; reflexivity.
  - reflexivity.
  - reflexivity.
  - reflexivity.
  - reflexivity.
Defined.

Lemma specify_appends_witness :
  ∃ q' s', specify (One (ByName "sessions")) (Many []) 2 demo_init.2
             = (Ok q', s') ∧
           q' ≠ 2 ∧
           raw_list s' q' "metrics" = Some ["ga:sessions"; "ga:sessions"] ∧
           raw_list s' q' "dimensions" = Some ["ga:date"] ∧
           raw_list s' 2 "metrics" = Some ["ga:sessions"; "ga:sessions"] ∧
           raw_list s' 2 "dimensions" = Some ["ga:date"].
Proof.
  apply (specify_appends (One (ByName "sessions")) (Many [])
           ["ga:sessions"] [] 2 demo_init.2 demo_query demo_raw ∅
           3 4 ["ga:sessions"] ["ga:date"]);
    try reflexivity.
  discriminate.
Defined.

Lemma specify_unresolved_witness :
  ∃ s', specify (One (ByName "nope")) (Many []) 2 demo_init.2
          = (Raise (KeyError "nope"), s') ∧
        untouched demo_init.2 s'.
Proof.
  apply (specify_unresolved (One (ByName "nope")) (Many []) 2 demo_init.2
           demo_query demo_raw ∅ (KeyError "nope")).
  - reflexivity.
  - reflexivity.
  - reflexivity.
  - left. reflexivity.
Defined.

Lemma serialize_columns_first_error_witness :
  _serialize_columns demo_profile
    (Many [ByName "sessions"; ByName "nope"; ByName "date"])
  = Raise (KeyError "nope").
Proof.
  apply (serialize_columns_first_error demo_profile [ByName "sessions"]
           (ByName "nope") [ByName "date"] ["ga:sessions"]); reflexivity.
Defined.

Lemma execute_single_page_witness :
  ∃ r s', execute 1 2 demo_init.2 = (Ok r, s') ∧
          report_rows s' r = Some [["20230101"; "10"]] ∧
          log s' = log demo_init.2
                   ++ [request_of demo_raw ["ga:sessions"] ["ga:date"]] ∧
          untouched demo_init.2 s'.
Proof.
  apply (execute_single_page 0 2 demo_init.2 demo_query demo_raw ∅ 3 4
           ["ga:sessions"] ["ga:date"] demo_page None); try reflexivity.
  right. reflexivity.
Defined.

Lemma execute_transport_error_witness :
  ∃ s', execute 1 7 off_page_init.2
          = (Raise (ValueError "no such page"), s') ∧
        log s' = log off_page_init.2 ++ [request_of off_page_raw [] []] ∧
        untouched off_page_init.2 s'.
Proof.
  apply (execute_transport_error 0 7 off_page_init.2
           {| q_raw := 10; q_meta := 6; q_profile := two_pages_profile [];
              q_report := None |}
           off_page_raw ∅ 3 4 [] [] (ValueError "no such page"));
    reflexivity.
Defined.
